(** * Employee tools of [main.py]: a shallow embedding

    [main.py] exposes three tools over a PostgreSQL table [employees]
    through psycopg2: [list_employees], [get_employee_by_id] and
    [add_employee].  Each one opens a connection, runs one parameterised
    statement inside [with conn.cursor()], closes the connection and
    returns, the whole body wrapped in [try ... except Exception]; when
    it returns, its frame is released and what it left open is finalised.

    The embedding keeps that shape.  Python values are an inductive type,
    the interpreter's exceptions are an outcome of a state-and-exception
    monad, and the database (table, sequence, open connections, cursors,
    the log of submitted statements, the failures injected by the
    environment) is the state that the monad threads. *)

From Stdlib Require Import ZArith Ascii String Floats.SpecFloat.
From stdpp Require Import gmap strings list sorting.

Set Warnings "-register-all".

Local Open Scope Z_scope.

(** ** Python values *)

(** The values that reach or leave the three tools.  A [str] is a
    sequence of code points below 256 (one [ascii] each); a [float] is an
    IEEE 754 datum; a [datetime] is a number of microseconds. *)
Inductive pyval : Type :=
| PyNone
| PyBool (b : bool)
| PyInt (z : Z)
| PyFloat (f : spec_float)
| PyStr (s : string)
| PyDatetime (t : Z)
| PyList (l : list pyval)
| PyDict (d : list (string * pyval)).

(** [type(v).__name__], as it appears in the interpreter's messages. *)
Definition type_name (v : pyval) : string :=
  match v with
  | PyNone => "NoneType"
  | PyBool _ => "bool"
  | PyInt _ => "int"
  | PyFloat _ => "float"
  | PyStr _ => "str"
  | PyDatetime _ => "datetime.datetime"
  | PyList _ => "list"
  | PyDict _ => "dict"
  end.

(** ** Exceptions *)

Inductive exn_class : Type :=
| AttributeError
| TypeError
| ValueError
| IndexError
| OperationalError
| InterfaceError
| ProgrammingError
| DataError.

(** An exception object: its class and [str(e)]. *)
Record exn : Type := Exn { exn_cls : exn_class; exn_str : string }.

(** Every class above derives from [Exception], so that the handler
    [except Exception as e] of the three tools catches it. *)
Definition is_Exception (c : exn_class) : bool :=
  match c with
  | AttributeError | TypeError | ValueError | IndexError
  | OperationalError | InterfaceError | ProgrammingError | DataError => true
  end.

(** ** [str.strip] *)

(** [str.isspace] on one code point below 256: U+0009..U+000D,
    U+001C..U+0020, U+0085 and U+00A0. *)
Definition is_space (a : ascii) : bool :=
  let n := N_of_ascii a in
  ((9 <=? n) && (n <=? 13) || (28 <=? n) && (n <=? 32)
   || (n =? 133) || (n =? 160))%N.

Definition is_empty (s : string) : bool :=
  match s with
  | EmptyString => true
  | String _ _ => false
  end.

Fixpoint lstrip (s : string) : string :=
  match s with
  | EmptyString => EmptyString
  | String a s' => if is_space a then lstrip s' else s
  end.

Fixpoint rstrip (s : string) : string :=
  match s with
  | EmptyString => EmptyString
  | String a s' =>
      let t := rstrip s' in
      if is_space a && is_empty t then EmptyString else String a t
  end.

Definition strip (s : string) : string := rstrip (lstrip s).

(** ** The employees table *)

(** Modelled from the spec: the type of the [salary] column, declared
    with the table outside [main.py]; a decimal or float there, an exact
    integer or an IEEE 754 datum here. *)
Inductive number : Type :=
| NInt (z : Z)
| NFloat (f : spec_float).

(** Modelled from the spec: the schema of the table [employees], which
    [main.py] reads and writes and does not create.  The six columns are
    the ones its statements name; [id] is an integer, [name], [position]
    and [department] are texts, [salary] is a number and [hire_date] a
    timestamp. *)
Record employee : Type := Employee {
  emp_id : Z;
  emp_name : string;
  emp_position : string;
  emp_department : string;
  emp_salary : number;
  emp_hire_date : Z
}.

Inductive column : Type :=
| c_id | c_name | c_position | c_department | c_salary | c_hire_date.

Definition column_name (c : column) : string :=
  match c with
  | c_id => "id"
  | c_name => "name"
  | c_position => "position"
  | c_department => "department"
  | c_salary => "salary"
  | c_hire_date => "hire_date"
  end.

Definition number_value (n : number) : pyval :=
  match n with
  | NInt z => PyInt z
  | NFloat f => PyFloat f
  end.

Definition column_value (c : column) (r : employee) : pyval :=
  match c with
  | c_id => PyInt (emp_id r)
  | c_name => PyStr (emp_name r)
  | c_position => PyStr (emp_position r)
  | c_department => PyStr (emp_department r)
  | c_salary => number_value (emp_salary r)
  | c_hire_date => PyDatetime (emp_hire_date r)
  end.

(** A row as [RealDictCursor] hands it over: a mapping from the selected
    column names to their values. *)
Definition record_of (cols : list column) (r : employee) : pyval :=
  PyDict (map (fun c => (column_name c, column_value c r)) cols).

Definition all_columns : list column :=
  [c_id; c_name; c_position; c_department; c_salary; c_hire_date].

Definition employee_record (r : employee) : pyval := record_of all_columns r.

(** ** Statements *)

(** The fragment of SQL that [main.py] writes.  Every [%s] of the text is
    a placeholder: it stands for the next bound parameter of the call to
    [cursor.execute] and is no part of the statement itself. *)
Inductive statement : Type :=
| Select (cols : list column)
         (where_id : bool)          (* WHERE id = %s *)
         (order_hire_date : bool)   (* ORDER BY hire_date DESC *)
         (limit : bool)             (* LIMIT %s *)
| Insert (cols : list column)       (* VALUES (%s, ..., %s), one per column *)
         (returning : list column). (* RETURNING ... *)

Definition placeholders (q : statement) : nat :=
  match q with
  | Select _ w _ l => ((if w then 1 else 0) + (if l then 1 else 0))%nat
  | Insert cols _ => length cols
  end.

(** ** The world outside the interpreter *)

(** The calls that leave the process, each of which the environment may
    make fail. *)
Inductive step : Type :=
| s_connect | s_cursor | s_execute | s_fetch | s_commit
| s_cursor_close | s_close.

(** A cursor object: the connection it belongs to and the rows of its
    last statement that were not fetched yet. *)
Record cursor_state : Type := CursorState {
  cur_conn : nat;
  cur_rows : option (list pyval)
}.

Record world : Type := World {
  table : list employee;              (* the committed rows *)
  sequence : Z;                       (* the generator of [id] *)
  clock : Z;                          (* what [datetime.now()] reads *)
  conns : gmap nat (list employee);   (* open connections, each with the
                                         rows of its open transaction *)
  cursors : gmap nat cursor_state;    (* open cursors *)
  log : list (statement * list pyval);(* calls of [cursor.execute] so far *)
  faults : step -> option exn         (* failures of the environment *)
}.

Definition set_table (t : list employee) (w : world) : world :=
  World t (sequence w) (clock w) (conns w) (cursors w) (log w) (faults w).
Definition set_sequence (n : Z) (w : world) : world :=
  World (table w) n (clock w) (conns w) (cursors w) (log w) (faults w).
Definition set_conns (c : gmap nat (list employee)) (w : world) : world :=
  World (table w) (sequence w) (clock w) c (cursors w) (log w) (faults w).
Definition set_cursors (c : gmap nat cursor_state) (w : world) : world :=
  World (table w) (sequence w) (clock w) (conns w) c (log w) (faults w).
Definition set_log (l : list (statement * list pyval)) (w : world) : world :=
  World (table w) (sequence w) (clock w) (conns w) (cursors w) l (faults w).

(** ** The monad of the interpreter: state and exceptions *)

Inductive outcome (A : Type) : Type :=
| Ok (a : A)
| Raise (e : exn).
Arguments Ok {A} a.
Arguments Raise {A} e.

Definition M (A : Type) : Type := world -> outcome A * world.

Definition ret {A} (a : A) : M A := fun w => (Ok a, w).

Definition raise {A} (e : exn) : M A := fun w => (Raise e, w).

Definition bind {A B} (m : M A) (k : A -> M B) : M B :=
  fun w =>
    match m w with
    | (Ok a, w') => k a w'
    | (Raise e, w') => (Raise e, w')
    end.

Notation "x <- c ;; k" := (bind c (fun x => k))
  (at level 100, c at next level, right associativity).
Notation "c ;; k" := (bind c (fun _ => k))
  (at level 100, right associativity).

(** [try: body except Exception as e: handler e].  The world keeps what
    [body] did to it before it raised. *)
Definition try_except {A} (body : M A) (handler : exn -> M A) : M A :=
  fun w =>
    match body w with
    | (Ok a, w') => (Ok a, w')
    | (Raise e, w') =>
        if is_Exception (exn_cls e) then handler e w' else (Raise e, w')
    end.

Definition fault (s : step) : M unit :=
  fun w =>
    match faults w s with
    | Some e => (Raise e, w)
    | None => (Ok tt, w)
    end.

Definition nl : string := String (ascii_of_nat 10) EmptyString.

(** ** What the store does with a statement *)

(** The store is the PostgreSQL server that psycopg2 talks to.  What
    follows is its answer to the statements of the fragment above, with
    parameters of the types the three tools pass; for parameters of other
    types the answer is a [ProgrammingError]. *)

#[global] Instance column_eq_dec : EqDecision column.
Proof. solve_decision. Defined.

(** [ORDER BY hire_date DESC]: a row comes before the rows hired no later
    than it. *)
Definition hired_after (r1 r2 : employee) : Prop :=
  emp_hire_date r2 <= emp_hire_date r1.

#[global] Instance hired_after_dec : RelDecision hired_after.
Proof. intros r1 r2. unfold hired_after. apply _. Defined.

Definition int8_max : Z := 9223372036854775807.

(** psycopg2 fills the placeholders from the tuple of parameters. *)
Definition check_arity (q : statement) (params : list pyval) : outcome unit :=
  match Nat.compare (length params) (placeholders q) with
  | Lt => Raise (Exn IndexError "tuple index out of range")
  | Gt => Raise (Exn TypeError
                   "not all arguments converted during string formatting")
  | Eq => Ok tt
  end.

Fixpoint has_nul (s : string) : bool :=
  match s with
  | EmptyString => false
  | String a s' => (N_of_ascii a =? 0)%N || has_nul s'
  end.

(** What psycopg2 cannot turn into an SQL literal: a [str] with a NUL
    character, and a [dict]. *)
Definition adapt_error (v : pyval) : option exn :=
  match v with
  | PyStr s =>
      if has_nul s then
        Some (Exn ValueError
                "A string literal cannot contain NUL (0x00) characters.")
      else None
  | PyDict _ => Some (Exn ProgrammingError "can't adapt type 'dict'")
  | _ => None
  end.

Fixpoint first_adapt_error (params : list pyval) : option exn :=
  match params with
  | [] => None
  | v :: params' =>
      match adapt_error v with
      | Some e => Some e
      | None => first_adapt_error params'
      end
  end.

Definition datatype_mismatch : exn := Exn ProgrammingError "datatype mismatch".

(** [WHERE id = %s], with an integer parameter. *)
Definition where_clause (where_id : bool) (params : list pyval)
    (rows : list employee) : outcome (list employee * list pyval) :=
  if where_id then
    match params with
    | PyInt z :: ps => Ok (filter (fun r => emp_id r = z) rows, ps)
    | _ => Raise datatype_mismatch
    end
  else Ok (rows, params).

Definition order_clause (order_hire_date : bool) (rows : list employee)
    : list employee :=
  if order_hire_date then merge_sort hired_after rows else rows.

(** [LIMIT %s], with an integer parameter.  PostgreSQL refuses a negative
    count (SQLSTATE 2201W) and one that does not fit [bigint] (22003);
    psycopg2 raises [DataError] for both. *)
Definition limit_clause (limit : bool) (params : list pyval)
    (rows : list employee) : outcome (list employee) :=
  if limit then
    match params with
    | PyInt n :: _ =>
        if n <? 0 then
          Raise (Exn DataError ("LIMIT must not be negative" +:+ nl))
        else if int8_max <? n then
          Raise (Exn DataError ("bigint out of range" +:+ nl))
        else Ok (take (Z.to_nat n) rows)
    | _ => Raise datatype_mismatch
    end
  else Ok rows.

Definition run_select (cols : list column) (where_id order limit : bool)
    (params : list pyval) (rows : list employee) : outcome (list pyval) :=
  match where_clause where_id params rows with
  | Raise e => Raise e
  | Ok (rows1, params1) =>
      match limit_clause limit params1 (order_clause order rows1) with
      | Raise e => Raise e
      | Ok rows2 => Ok (map (record_of cols) rows2)
      end
  end.

Fixpoint assoc (c : column) (l : list (column * pyval)) : option pyval :=
  match l with
  | [] => None
  | (c', v) :: l' => if decide (c = c') then Some v else assoc c l'
  end.

Definition as_number (v : pyval) : option number :=
  match v with
  | PyInt z => Some (NInt z)
  | PyFloat f => Some (NFloat f)
  | _ => None
  end.

(** The row that [INSERT INTO employees (cols) VALUES (params)] creates:
    [id] comes from the sequence, the other five columns from the
    parameters, each of the type of its column. *)
Definition new_row (cols : list column) (params : list pyval) (next : Z)
    : outcome employee :=
  let given := zip cols params in
  match assoc c_name given, assoc c_position given,
        assoc c_department given, assoc c_salary given,
        assoc c_hire_date given with
  | Some (PyStr n), Some (PyStr p), Some (PyStr d), Some s,
    Some (PyDatetime t) =>
      match as_number s with
      | Some x => Ok (Employee next n p d x t)
      | None => Raise datatype_mismatch
      end
  | _, _, _, _, _ => Raise datatype_mismatch
  end.

(** The rows a statement returns to its cursor, the rows it adds to the
    open transaction, and the sequence after it.  [visible] is what the
    connection sees: the committed rows and those of its transaction. *)
Definition run_statement (q : statement) (params : list pyval)
    (visible : list employee) (next : Z)
    : outcome (list pyval * list employee * Z) :=
  match check_arity q params with
  | Raise e => Raise e
  | Ok _ =>
      match first_adapt_error params with
      | Some e => Raise e
      | None =>
          match q with
          | Select cols w o l =>
              match run_select cols w o l params visible with
              | Raise e => Raise e
              | Ok rs => Ok (rs, [], next)
              end
          | Insert cols returning =>
              match new_row cols params next with
              | Raise e => Raise e
              | Ok r => Ok ([record_of returning r], [r], next + 1)
              end
          end
      end
  end.

Arguments run_statement : simpl never.
Arguments first_adapt_error : simpl never.

(** ** psycopg2: connections and cursors *)

Definition connection_closed : exn :=
  Exn InterfaceError "connection already closed".
Definition cursor_closed : exn := Exn InterfaceError "cursor already closed".

(** [psycopg2.connect(...)]: a new connection, with an empty transaction.
    The handle is one that no open connection has. *)
Definition connect : M nat :=
  fault s_connect ;;
  fun w =>
    let conn := fresh (dom (conns w)) in
    (Ok conn, set_conns (<[conn := []]> (conns w)) w).

(** [conn.cursor()] *)
Definition conn_cursor (conn : nat) : M nat :=
  fun w =>
    match conns w !! conn with
    | None => (Raise connection_closed, w)
    | Some _ =>
        match faults w s_cursor with
        | Some e => (Raise e, w)
        | None =>
            let c := fresh (dom (cursors w)) in
            (Ok c, set_cursors (<[c := CursorState conn None]> (cursors w)) w)
        end
    end.

(** [cursor.execute(q, params)]: the statement and its parameters are
    two arguments; the store runs the statement on the committed rows and
    on those of the connection's transaction. *)
Definition cursor_execute (c : nat) (q : statement) (params : list pyval)
    : M unit :=
  fun w =>
    match cursors w !! c with
    | None => (Raise cursor_closed, w)
    | Some cs =>
        match conns w !! cur_conn cs with
        | None => (Raise connection_closed, w)
        | Some pending =>
            let w1 := set_log (log w ++ [(q, params)]) w in
            match faults w s_execute with
            | Some e => (Raise e, w1)
            | None =>
                match run_statement q params (table w ++ pending)
                        (sequence w) with
                | Raise e => (Raise e, w1)
                | Ok (rows, inserted, next) =>
                    (Ok tt,
                     set_cursors
                       (<[c := CursorState (cur_conn cs) (Some rows)]>
                          (cursors w))
                       (set_conns
                          (<[cur_conn cs := pending ++ inserted]> (conns w))
                          (set_sequence next w1)))
                end
            end
        end
    end.

Definition no_results : exn := Exn ProgrammingError "no results to fetch".

(** [cursor.fetchall()] *)
Definition cursor_fetchall (c : nat) : M pyval :=
  fun w =>
    match cursors w !! c with
    | None => (Raise cursor_closed, w)
    | Some cs =>
        match faults w s_fetch with
        | Some e => (Raise e, w)
        | None =>
            match cur_rows cs with
            | None => (Raise no_results, w)
            | Some rows =>
                (Ok (PyList rows),
                 set_cursors
                   (<[c := CursorState (cur_conn cs) (Some [])]> (cursors w))
                   w)
            end
        end
    end.

(** [cursor.fetchone()]: the next row, or [None] when there is none. *)
Definition cursor_fetchone (c : nat) : M pyval :=
  fun w =>
    match cursors w !! c with
    | None => (Raise cursor_closed, w)
    | Some cs =>
        match faults w s_fetch with
        | Some e => (Raise e, w)
        | None =>
            match cur_rows cs with
            | None => (Raise no_results, w)
            | Some [] => (Ok PyNone, w)
            | Some (r :: rows) =>
                (Ok r,
                 set_cursors
                   (<[c := CursorState (cur_conn cs) (Some rows)]>
                      (cursors w))
                   w)
            end
        end
    end.

(** [cursor.close()] *)
Definition cursor_close (c : nat) : M unit :=
  fault s_cursor_close ;;
  fun w => (Ok tt, set_cursors (delete c (cursors w)) w).

(** [conn.commit()]: the rows of the transaction become committed rows. *)
Definition conn_commit (conn : nat) : M unit :=
  fun w =>
    match conns w !! conn with
    | None => (Raise connection_closed, w)
    | Some pending =>
        match faults w s_commit with
        | Some e => (Raise e, w)
        | None =>
            (Ok tt,
             set_conns (<[conn := []]> (conns w))
               (set_table (table w ++ pending) w))
        end
    end.

(** [conn.close()]: the connection is released; what its transaction did
    not commit is lost.  Closing a closed connection does nothing. *)
Definition conn_close (conn : nat) : M unit :=
  fault s_close ;;
  fun w => (Ok tt, set_conns (delete conn (conns w)) w).

(** [with conn.cursor() as cursor: body]: the cursor is closed when the
    block is left, also when [body] raised; the connection is not. *)
Definition with_cursor {A} (conn : nat) (body : nat -> M A) : M A :=
  cursor <- conn_cursor conn ;;
  fun w =>
    match body cursor w with
    | (Ok a, w') =>
        match cursor_close cursor w' with
        | (Ok _, w'') => (Ok a, w'')
        | (Raise e, w'') => (Raise e, w'')
        end
    | (Raise e, w') =>
        match cursor_close cursor w' with
        | (Ok _, w'') => (Raise e, w'')
        | (Raise e', w'') => (Raise e', w'')
        end
    end.

(** [datetime.now()] *)
Definition datetime_now : M pyval := fun w => (Ok (PyDatetime (clock w)), w).

(** ** Calls and their frames *)

(** The objects of [after] that were there [before]: what a call
    created is not among them. *)
Definition surviving {A} (before after : gmap nat A) : gmap nat A :=
  filter (fun entry => fst entry ∈ dom before) after.

Arguments surviving : simpl never.

(** The frame of a call is released when the call returns.  The
    connection and the cursor that the call created are referenced by
    its local variables only ([conn], [cursor]), so that CPython
    finalises them at once: the destructor of a psycopg2 connection
    closes it, without a commit and without raising, if [conn.close()]
    was not reached. *)
Definition release_frame (before after : world) : world :=
  set_cursors (surviving (cursors before) (cursors after))
    (set_conns (surviving (conns before) (conns after)) after).

Arguments release_frame : simpl never.

(** A call of a function of [main.py]: its body, then the release of its
    frame. *)
Definition call {A} (body : M A) : M A :=
  fun w =>
    match body w with
    | (o, w') => (o, release_frame w w')
    end.

(** ** Python operators of the validation *)

(** [v.strip()] *)
Definition py_strip (v : pyval) : M pyval :=
  match v with
  | PyStr s => ret (PyStr (strip s))
  | _ =>
      raise (Exn AttributeError
               ("'" +:+ type_name v +:+ "' object has no attribute 'strip'"))
  end.

(** [not v], for the values [strip] returns. *)
Definition py_not (v : pyval) : bool :=
  match v with
  | PyNone => true
  | PyBool b => negb b
  | PyInt z => z =? 0
  | PyFloat f => SFeqb f (S754_zero false)
  | PyStr s => is_empty s
  | PyDatetime _ => false
  | PyList l => match l with [] => true | _ => false end
  | PyDict d => match d with [] => true | _ => false end
  end.

(** [v <= 0] where the interpreter defines it: between numbers. *)
Definition le_zero (v : pyval) : option bool :=
  match v with
  | PyBool b => Some (Z.b2z b <=? 0)
  | PyInt z => Some (z <=? 0)
  | PyFloat f => Some (SFleb f (S754_zero false))
  | _ => None
  end.

(** [v <= 0] *)
Definition py_le_zero (v : pyval) : M bool :=
  match le_zero v with
  | Some b => ret b
  | None =>
      raise (Exn TypeError
               ("'<=' not supported between instances of '" +:+ type_name v
                +:+ "' and 'int'"))
  end.

Definition error_envelope (msg : string) : pyval :=
  PyDict [("error", PyStr msg)].

(** ** [main.py] *)

(** [get_db_connection()].  The five settings read with [os.getenv] and
    the cursor factory configure the connection; whether the store can be
    reached with them is the environment's [faults w s_connect]. *)
Definition get_db_connection : M nat :=
  conn <- connect ;;
  ret conn.

(** <<
    SELECT id, name, position, department, salary, hire_date
    FROM employees
    ORDER BY hire_date DESC
    LIMIT %s;
    >> *)
Definition list_employees_sql : statement :=
  Select [c_id; c_name; c_position; c_department; c_salary; c_hire_date]
         false true true.

(** <<
    SELECT id, name, position, department, salary, hire_date
    FROM employees
    WHERE id = %s;
    >> *)
Definition get_employee_sql : statement :=
  Select [c_id; c_name; c_position; c_department; c_salary; c_hire_date]
         true false false.

(** <<
    INSERT INTO employees (name, position, department, salary, hire_date)
    VALUES (%s, %s, %s, %s, %s)
    RETURNING id, name, position, department, salary, hire_date;
    >> *)
Definition add_employee_sql : statement :=
  Insert [c_name; c_position; c_department; c_salary; c_hire_date]
         [c_id; c_name; c_position; c_department; c_salary; c_hire_date].

(** The body of [list_employees], lines 38 to 50. *)
Definition list_employees_body (limit : Z) : M pyval :=
  try_except
    (conn <- get_db_connection ;;
     employees <- with_cursor conn (fun cursor =>
       cursor_execute cursor list_employees_sql [PyInt limit] ;;
       employees <- cursor_fetchall cursor ;;
       ret employees) ;;
     conn_close conn ;;
     ret employees)
    (fun e =>
       ret (error_envelope
              ("It was not possible to hire employees: " +:+ exn_str e))).

(** [list_employees(limit: int = 5)].  [limit] is an [int], as
    annotated: what the store makes of a parameter of another type is
    not modelled. *)
Definition list_employees (limit : Z) : M pyval :=
  call (list_employees_body limit).

(** The body of [get_employee_by_id], lines 62 to 73. *)
Definition get_employee_by_id_body (employee_id : Z) : M pyval :=
  try_except
    (conn <- get_db_connection ;;
     employee <- with_cursor conn (fun cursor =>
       cursor_execute cursor get_employee_sql [PyInt employee_id] ;;
       employee <- cursor_fetchone cursor ;;
       ret employee) ;;
     conn_close conn ;;
     ret employee)
    (fun e =>
       ret (error_envelope ("Could not retrieve employee: " +:+ exn_str e))).

(** [get_employee_by_id(employee_id: int)], with an [int] as well. *)
Definition get_employee_by_id (employee_id : Z) : M pyval :=
  call (get_employee_by_id_body employee_id).

(** The body of [add_employee], lines 88 to 113. *)
Definition add_employee_body (name position department salary : pyval)
    : M pyval :=
  try_except
    (stripped <- py_strip name ;;
     if py_not stripped then
       ret (error_envelope "Employee name cannot be empty.")
     else
     stripped <- py_strip position ;;
     if py_not stripped then
       ret (error_envelope "Employee position cannot be empty.")
     else
     stripped <- py_strip department ;;
     if py_not stripped then
       ret (error_envelope "Employee department cannot be empty.")
     else
     nonpositive <- py_le_zero salary ;;
     if (nonpositive : bool) then
       ret (error_envelope "Employee salary must be a positive number.")
     else
     conn <- get_db_connection ;;
     new_employee <- with_cursor conn (fun cursor =>
       now <- datetime_now ;;
       cursor_execute cursor add_employee_sql
         [name; position; department; salary; now] ;;
       new_employee <- cursor_fetchone cursor ;;
       conn_commit conn ;;
       ret new_employee) ;;
     conn_close conn ;;
     ret (PyDict [("message", PyStr "Employee added successfully.");
                  ("employee", new_employee)]))
    (fun e =>
       ret (error_envelope ("Could not add employee: " +:+ exn_str e))).

(** [add_employee(name, position, department, salary)].  The four
    arguments are whatever the caller passes: the annotations [str] and
    [float] are not checked by the function. *)
Definition add_employee (name position department salary : pyval) : M pyval :=
  call (add_employee_body name position department salary).

(** ** Worlds to run the tools in *)

Definition no_faults : step -> option exn := fun _ => None.

Definition ada : employee :=
  Employee 1 "Ada" "Engineer" "R&D" (NInt 100000) 1000.
Definition bob : employee :=
  Employee 2 "Bob" "Analyst" "Finance" (NInt 70000) 3000.
Definition eve : employee :=
  Employee 3 "Eve" "Manager" "R&D" (NInt 120000) 2000.

(** A reachable store with three rows and nothing open. *)
Definition world0 : world :=
  World [ada; bob; eve] 4 5000 ∅ ∅ [] no_faults.

Definition timeout_error : exn := Exn OperationalError "connection timed out".

(** The same store when the statement fails. *)
Definition world_execute_fails : world :=
  World [ada; bob; eve] 4 5000 ∅ ∅ []
        (fun s => match s with s_execute => Some timeout_error | _ => None end).

(** The same store when it cannot be reached. *)
Definition world_unreachable : world :=
  World [ada; bob; eve] 4 5000 ∅ ∅ []
        (fun s => match s with s_connect => Some timeout_error | _ => None end).

(** The same store when the commit fails. *)
Definition world_commit_fails : world :=
  World [ada; bob; eve] 4 5000 ∅ ∅ []
        (fun s => match s with s_commit => Some timeout_error | _ => None end).

(** The same store when only [conn.close()] fails. *)
Definition world_close_fails : world :=
  World [ada; bob; eve] 4 5000 ∅ ∅ []
        (fun s => match s with s_close => Some timeout_error | _ => None end).

Definition server_gone : exn :=
  Exn OperationalError "server closed the connection unexpectedly".

(** The same store when the statement fails and then the cursor cannot
    be closed either. *)
Definition world_statement_and_cursor_fail : world :=
  World [ada; bob; eve] 4 5000 ∅ ∅ []
        (fun s => match s with
                  | s_execute => Some timeout_error
                  | s_cursor_close => Some server_gone
                  | _ => None
                  end).

(** ** Shapes of the values the tools return *)

Definition is_error_envelope (v : pyval) : Prop :=
  exists msg, v = error_envelope msg.

Definition is_employee_list (v : pyval) : Prop :=
  exists rows, v = PyList (map employee_record rows).

Definition is_employee_or_none (v : pyval) : Prop :=
  v = PyNone \/ exists r, v = employee_record r.

Definition added (r : employee) : pyval :=
  PyDict [("message", PyStr "Employee added successfully.");
          ("employee", employee_record r)].

Definition is_added (v : pyval) : Prop := exists r, v = added r.

(** The row that a call of [add_employee] with these arguments creates
    in the world [w]. *)
Definition hired (n p d : string) (x : number) (w : world) : employee :=
  Employee (sequence w) n p d x (clock w).

(** What the validation of [add_employee] lets through. *)
Definition blank (v : pyval) : Prop := exists s, v = PyStr s /\ strip s = "".
Definition nonblank (v : pyval) : Prop :=
  exists s, v = PyStr s /\ strip s <> "".
Definition not_str (v : pyval) : Prop := forall s, v <> PyStr s.

(** The validation of [add_employee] raises: an argument that is no
    [str] reaches [strip], or one that is no number reaches [<= 0]. *)
Definition validation_raises (name position department salary : pyval)
    : Prop :=
  not_str name \/
  (nonblank name /\ not_str position) \/
  (nonblank name /\ nonblank position /\ not_str department) \/
  (nonblank name /\ nonblank position /\ nonblank department /\
   le_zero salary = None).

(** [d.keys()] *)
Definition dict_keys (v : pyval) : list string :=
  match v with
  | PyDict d => map fst d
  | _ => []
  end.

(** Every character of the string is white space. *)
Fixpoint all_space (s : string) : bool :=
  match s with
  | EmptyString => true
  | String a s' => is_space a && all_space s'
  end.

(** ** What the store answers to the three statements *)

Lemma run_list_employees_sql limit visible next :
  run_statement list_employees_sql [PyInt limit] visible next =
    if limit <? 0 then
      Raise (Exn DataError ("LIMIT must not be negative" +:+ nl))
    else if int8_max <? limit then
      Raise (Exn DataError ("bigint out of range" +:+ nl))
    else
      Ok (map employee_record
            (take (Z.to_nat limit) (merge_sort hired_after visible)),
          [], next).
Proof.
  unfold run_statement, list_employees_sql. cbn. unfold limit_clause.
  destruct (limit <? 0); [done|]. by destruct (int8_max <? limit).
Qed.

Lemma run_get_employee_sql employee_id visible next :
  run_statement get_employee_sql [PyInt employee_id] visible next =
    Ok (map employee_record
          (filter (fun r => emp_id r = employee_id) visible),
        [], next).
Proof. reflexivity. Qed.

Lemma run_add_employee_sql name position department salary now visible next :
  run_statement add_employee_sql
    [PyStr name; PyStr position; PyStr department; salary; PyDatetime now]
    visible next =
    match first_adapt_error
            [PyStr name; PyStr position; PyStr department; salary] with
    | Some e => Raise e
    | None =>
        match as_number salary with
        | Some x =>
            let r := Employee next name position department x now in
            Ok ([employee_record r], [r], next + 1)
        | None => Raise datatype_mismatch
        end
    end.
Proof.
  unfold run_statement, first_adapt_error. cbn.
  destruct (has_nul name); [done|]. destruct (has_nul position); [done|].
  destruct (has_nul department); [done|]. by destruct salary.
Qed.

Lemma adaptable_arguments n p d salary x :
  has_nul n = false -> has_nul p = false -> has_nul d = false ->
  as_number salary = Some x ->
  first_adapt_error [PyStr n; PyStr p; PyStr d; salary] = None.
Proof.
  intros Hn Hp Hd Hx. unfold first_adapt_error. cbn. rewrite Hn, Hp, Hd.
  by destruct salary.
Qed.

(** ** Ordering by hire date *)

#[global] Instance hired_after_total : Total hired_after.
Proof. intros r1 r2. unfold hired_after. lia. Qed.

#[global] Instance hired_after_transitive : Transitive hired_after.
Proof. intros r1 r2 r3. unfold hired_after. lia. Qed.

(** ** Running the tools, path by path *)

Lemma is_Exception_all c : is_Exception c = true.
Proof. by destruct c. Qed.

Lemma fresh_conn_closed (m : gmap nat (list employee)) :
  m !! fresh (dom m) = None.
Proof. apply not_elem_of_dom, is_fresh. Qed.

Lemma fresh_cursor_closed (m : gmap nat cursor_state) :
  m !! fresh (dom m) = None.
Proof. apply not_elem_of_dom, is_fresh. Qed.

Lemma conn_delete_insert (m : gmap nat (list employee)) conn pending :
  delete conn (<[conn := pending]> m) = delete conn m.
Proof. apply delete_insert_eq. Qed.

Lemma conn_delete_fresh (m : gmap nat (list employee)) :
  delete (fresh (dom m)) m = m.
Proof. apply delete_id, fresh_conn_closed. Qed.

Lemma cursor_delete_insert (m : gmap nat cursor_state) c cs :
  delete c (<[c := cs]> m) = delete c m.
Proof. apply delete_insert_eq. Qed.

Lemma cursor_delete_fresh (m : gmap nat cursor_state) :
  delete (fresh (dom m)) m = m.
Proof. apply delete_id, fresh_cursor_closed. Qed.

Lemma conn_insert_insert (m : gmap nat (list employee)) conn pending pending' :
  <[conn := pending]> (<[conn := pending']> m) = <[conn := pending]> m.
Proof. apply insert_insert_eq. Qed.

Lemma cursor_insert_insert (m : gmap nat cursor_state) c cs cs' :
  <[c := cs]> (<[c := cs']> m) = <[c := cs]> m.
Proof. apply insert_insert_eq. Qed.

Lemma surviving_id {A} (m : gmap nat A) : surviving m m = m.
Proof.
  apply map_filter_id. intros i x Hi. cbn. by apply elem_of_dom_2 with x.
Qed.

Lemma surviving_fresh {A} (m : gmap nat A) x :
  surviving m (<[fresh (dom m) := x]> m) = m.
Proof.
  unfold surviving. rewrite map_filter_insert_not; [apply surviving_id|].
  intros y. cbn. apply is_fresh.
Qed.

Lemma conn_surviving_id (m : gmap nat (list employee)) : surviving m m = m.
Proof. apply surviving_id. Qed.

Lemma conn_surviving_fresh (m : gmap nat (list employee)) pending :
  surviving m (<[fresh (dom m) := pending]> m) = m.
Proof. apply surviving_fresh. Qed.

Lemma cursor_surviving_id (m : gmap nat cursor_state) : surviving m m = m.
Proof. apply surviving_id. Qed.

Lemma cursor_surviving_fresh (m : gmap nat cursor_state) cs :
  surviving m (<[fresh (dom m) := cs]> m) = m.
Proof. apply surviving_fresh. Qed.

Lemma release_frame_table before after :
  table (release_frame before after) = table after.
Proof. reflexivity. Qed.

Lemma release_frame_sequence before after :
  sequence (release_frame before after) = sequence after.
Proof. reflexivity. Qed.

Lemma release_frame_clock before after :
  clock (release_frame before after) = clock after.
Proof. reflexivity. Qed.

Lemma release_frame_log before after :
  log (release_frame before after) = log after.
Proof. reflexivity. Qed.

Lemma release_frame_faults before after :
  faults (release_frame before after) = faults after.
Proof. reflexivity. Qed.

Lemma release_frame_conns before after :
  conns (release_frame before after)
  = surviving (conns before) (conns after).
Proof. reflexivity. Qed.

Lemma release_frame_cursors before after :
  cursors (release_frame before after)
  = surviving (cursors before) (cursors after).
Proof. reflexivity. Qed.

(** A call that opened nothing releases nothing. *)
Lemma release_frame_id w : release_frame w w = w.
Proof.
  destruct w. unfold release_frame, set_cursors, set_conns. cbn.
  by rewrite !surviving_id.
Qed.

Ltac unfold_tools :=
  unfold list_employees, get_employee_by_id, add_employee, call,
    list_employees_body, get_employee_by_id_body, add_employee_body,
    try_except, get_db_connection, connect, with_cursor, conn_cursor, cursor_execute,
    cursor_fetchall, cursor_fetchone, cursor_close, conn_commit, conn_close,
    datetime_now, py_strip, py_le_zero, bind, ret, raise, fault.

(** One step along a path of a tool: simplify, look a fresh handle up, or
    split on what the environment or the store answers. *)
Ltac run_step :=
  first
    [ rewrite is_Exception_all
    | rewrite lookup_insert_eq
    | rewrite release_frame_id
    | rewrite release_frame_table
    | rewrite release_frame_sequence
    | rewrite release_frame_log
    | rewrite release_frame_conns
    | rewrite release_frame_cursors
    | rewrite run_list_employees_sql
    | rewrite run_get_employee_sql
    | rewrite run_add_employee_sql
    | progress cbn
    | match goal with
      | H : forall s, faults ?w s = None |- context [faults ?w ?s] =>
          rewrite (H s)
      | H : faults ?w ?s = _ |- context [faults ?w ?s] => rewrite H
      | |- context [faults ?w ?s] => is_var w; destruct (faults w s) eqn:?
      | |- context [if ?b then _ else _] => destruct b eqn:?
      | H : first_adapt_error ?l = _
        |- context [match first_adapt_error ?l with _ => _ end] => rewrite H
      | |- context [match first_adapt_error ?l with _ => _ end] =>
          destruct (first_adapt_error l) eqn:?
      | |- context [match as_number ?s with _ => _ end] =>
          destruct (as_number s) eqn:?
      | |- context [match le_zero ?s with _ => _ end] =>
          destruct (le_zero s) eqn:?
      end ].

Ltac run_tool := repeat run_step.

(** Every path of a tool, whatever the arguments are. *)
Ltac run_paths :=
  repeat first
    [ run_step
    | match goal with
      | |- context [match ?v with
                    | PyNone => _ | PyBool _ => _ | PyInt _ => _
                    | PyFloat _ => _ | PyStr _ => _ | PyDatetime _ => _
                    | PyList _ => _ | PyDict _ => _
                    end] => is_var v; destruct v
      | |- context [map employee_record (filter ?P ?l)] =>
          destruct (filter P l)
      end ].

Lemma world_eq w1 w2 :
  table w1 = table w2 -> sequence w1 = sequence w2 -> clock w1 = clock w2 ->
  conns w1 = conns w2 -> cursors w1 = cursors w2 -> log w1 = log w2 ->
  faults w1 = faults w2 -> w1 = w2.
Proof. destruct w1, w2; cbn; congruence. Qed.

(** The handles a tool opened are gone when it has returned, closed by
    the tool or finalised with its frame: the two worlds agree field by
    field. *)
Ltac settle_handles :=
  rewrite ?conn_delete_insert, ?conn_delete_fresh,
    ?cursor_delete_insert, ?cursor_delete_fresh,
    ?conn_insert_insert, ?cursor_insert_insert,
    ?conn_surviving_fresh, ?cursor_surviving_fresh,
    ?conn_surviving_id, ?cursor_surviving_id.

Ltac release :=
  f_equal; apply world_eq;
  rewrite ?release_frame_table, ?release_frame_sequence,
    ?release_frame_clock, ?release_frame_log, ?release_frame_faults,
    ?release_frame_conns, ?release_frame_cursors;
  cbn [table sequence clock conns cursors log faults
       set_table set_sequence set_conns set_cursors set_log];
  settle_handles;
  reflexivity.

Lemma list_employees_cases limit w :
  (exists msg, fst (list_employees limit w) = Ok (error_envelope msg)) \/
  (0 <= limit /\
   list_employees limit w =
     (Ok (PyList (map employee_record
                    (take (Z.to_nat limit)
                       (merge_sort hired_after (table w))))),
      set_log (log w ++ [(list_employees_sql, [PyInt limit])]) w)).
Proof.
  unfold_tools. run_tool; try (left; eexists; reflexivity).
  right. split; [lia|]. rewrite app_nil_r. release.
Qed.

Lemma get_employee_by_id_cases employee_id w :
  (exists msg, fst (get_employee_by_id employee_id w)
               = Ok (error_envelope msg)) \/
  get_employee_by_id employee_id w =
    (Ok (from_option employee_record PyNone
           (head (filter (fun r => emp_id r = employee_id) (table w)))),
     set_log (log w ++ [(get_employee_sql, [PyInt employee_id])]) w).
Proof.
  unfold_tools. run_tool; try (left; eexists; reflexivity).
  rewrite app_nil_r.
  destruct (filter _ (table w)) as [|r rows]; run_tool;
    try (left; eexists; reflexivity); right; release.
Qed.

Lemma is_empty_true s : is_empty s = true <-> s = "".
Proof. by destruct s. Qed.

Lemma is_empty_false s : is_empty s = false <-> s <> "".
Proof. by destruct s. Qed.

Lemma add_employee_cases name position department salary w :
  (exists msg, fst (add_employee name position department salary w)
               = Ok (error_envelope msg)) \/
  (exists n p d x,
     name = PyStr n /\ position = PyStr p /\ department = PyStr d /\
     strip n <> "" /\ strip p <> "" /\ strip d <> "" /\
     le_zero salary = Some false /\ as_number salary = Some x /\
     add_employee name position department salary w =
       (Ok (added (hired n p d x w)),
        set_table (table w ++ [hired n p d x w])
          (set_sequence (sequence w + 1)
             (set_log
                (log w ++ [(add_employee_sql,
                            [name; position; department; salary;
                             PyDatetime (clock w)])]) w)))).
Proof.
  unfold_tools.
  destruct name as [| | | |n| | |]; try (left; eexists; reflexivity).
  cbn. destruct (is_empty (strip n)) eqn:Hn; [left; eexists; reflexivity|].
  destruct position as [| | | |p| | |]; try (left; eexists; reflexivity).
  cbn. destruct (is_empty (strip p)) eqn:Hp; [left; eexists; reflexivity|].
  destruct department as [| | | |d| | |]; try (left; eexists; reflexivity).
  cbn. destruct (is_empty (strip d)) eqn:Hd; [left; eexists; reflexivity|].
  apply is_empty_false in Hn, Hp, Hd.
  run_tool; try (left; eexists; reflexivity).
  right. eexists n, p, d, _. repeat (split; [done|]).
  unfold hired. release.
Qed.

(** ** The tools against a store that answers *)

Section store_answers.
Context (w : world) (answers : forall s, faults w s = None).

Lemma list_employees_no_faults limit :
  fst (list_employees limit w) =
    (if limit <? 0 then
       Ok (error_envelope
             ("It was not possible to hire employees: "
              +:+ "LIMIT must not be negative" +:+ nl))
     else if int8_max <? limit then
       Ok (error_envelope ("It was not possible to hire employees: "
                           +:+ "bigint out of range" +:+ nl))
     else
       Ok (PyList (map employee_record
                     (take (Z.to_nat limit)
                        (merge_sort hired_after (table w)))))) /\
  log (snd (list_employees limit w)) =
    log w ++ [(list_employees_sql, [PyInt limit])].
Proof. unfold_tools. run_tool; rewrite ?app_nil_r; done. Qed.

Lemma get_employee_by_id_no_faults employee_id :
  get_employee_by_id employee_id w =
    (Ok (from_option employee_record PyNone
           (head (filter (fun r => emp_id r = employee_id) (table w)))),
     set_log (log w ++ [(get_employee_sql, [PyInt employee_id])]) w).
Proof.
  unfold_tools. run_tool. rewrite app_nil_r.
  destruct (filter _ (table w)) as [|r rows]; run_tool; release.
Qed.

(** The table of the model takes every text without NUL and every
    number; the real one may be stricter. *)
Lemma add_employee_no_faults n p d salary x :
  strip n <> "" -> strip p <> "" -> strip d <> "" ->
  has_nul n = false -> has_nul p = false -> has_nul d = false ->
  le_zero salary = Some false -> as_number salary = Some x ->
  add_employee (PyStr n) (PyStr p) (PyStr d) salary w =
    (Ok (added (hired n p d x w)),
     set_table (table w ++ [hired n p d x w])
       (set_sequence (sequence w + 1)
          (set_log
             (log w ++ [(add_employee_sql,
                         [PyStr n; PyStr p; PyStr d; salary;
                          PyDatetime (clock w)])]) w))).
Proof.
  intros Hn Hp Hd Hn0 Hp0 Hd0 Hs Hx. apply is_empty_false in Hn, Hp, Hd.
  pose proof (adaptable_arguments n p d salary x Hn0 Hp0 Hd0 Hx) as Ha.
  unfold_tools. cbn. rewrite Hn. cbn. rewrite Hp. cbn. rewrite Hd, Hs.
  run_tool; simplify_eq. unfold hired. release.
Qed.
End store_answers.

(** ** The tools on every path *)

Lemma list_employees_keeps_table limit w :
  table (snd (list_employees limit w)) = table w.
Proof. unfold_tools. run_tool; reflexivity. Qed.

Lemma get_employee_by_id_keeps_table employee_id w :
  table (snd (get_employee_by_id employee_id w)) = table w.
Proof.
  unfold_tools. run_tool; try reflexivity.
  destruct (filter _ (table w ++ [])); run_tool; reflexivity.
Qed.

Lemma add_employee_rejected name position department salary w :
  (exists msg, add_employee name position department salary w
               = (Ok (error_envelope msg), w)) \/
  (nonblank name /\ nonblank position /\ nonblank department /\
   le_zero salary = Some false).
Proof.
  unfold_tools.
  destruct name as [| | | |n| | |]; try (left; eexists; cbn; rewrite release_frame_id; reflexivity).
  cbn. destruct (is_empty (strip n)) eqn:Hn; [left; eexists; cbn; rewrite release_frame_id; reflexivity|].
  destruct position as [| | | |p| | |]; try (left; eexists; cbn; rewrite release_frame_id; reflexivity).
  cbn. destruct (is_empty (strip p)) eqn:Hp; [left; eexists; cbn; rewrite release_frame_id; reflexivity|].
  destruct department as [| | | |d| | |]; try (left; eexists; cbn; rewrite release_frame_id; reflexivity).
  cbn. destruct (is_empty (strip d)) eqn:Hd; [left; eexists; cbn; rewrite release_frame_id; reflexivity|].
  apply is_empty_false in Hn, Hp, Hd.
  destruct (le_zero salary) as [[]|] eqn:Hs; try (left; eexists; cbn; rewrite release_frame_id; reflexivity).
  right. unfold nonblank. eauto 10.
Qed.

Lemma add_employee_unreachable name position department salary w e :
  faults w s_connect = Some e ->
  exists msg, fst (add_employee name position department salary w)
              = Ok (error_envelope msg).
Proof.
  intros He.
  destruct (add_employee_rejected name position department salary w)
    as [[msg ->]|((n & -> & Hn) & (p & -> & Hp) & (d & -> & Hd) & Hs)];
    [by exists msg|].
  apply is_empty_false in Hn, Hp, Hd.
  unfold_tools. cbn. rewrite Hn. cbn. rewrite Hp. cbn. rewrite Hd, Hs.
  run_tool. by eexists.
Qed.

(** ** The claims *)

(** C1.  Whatever the arguments and whichever call to the store fails,
    each of the three tools returns a value and raises nothing: the list
    of records, the record or [None], the [message]/[employee] mapping,
    or the envelope [{"error": ...}].  When the store cannot be reached
    the value is the envelope, with the cause in its message. *)
Theorem tools_never_raise (w : world) :
  (forall limit, exists v,
     fst (list_employees limit w) = Ok v /\
     (is_employee_list v \/ is_error_envelope v)) /\
  (forall employee_id, exists v,
     fst (get_employee_by_id employee_id w) = Ok v /\
     (is_employee_or_none v \/ is_error_envelope v)) /\
  (forall name position department salary, exists v,
     fst (add_employee name position department salary w) = Ok v /\
     (is_added v \/ is_error_envelope v)) /\
  (forall e, faults w s_connect = Some e ->
     (forall limit,
        fst (list_employees limit w) =
          Ok (error_envelope
                ("It was not possible to hire employees: " +:+ exn_str e))) /\
     (forall employee_id,
        fst (get_employee_by_id employee_id w) =
          Ok (error_envelope
                ("Could not retrieve employee: " +:+ exn_str e))) /\
     (forall name position department salary, exists msg,
        fst (add_employee name position department salary w) =
          Ok (error_envelope msg))).
Proof.
  repeat split.
  - intros limit.
    destruct (list_employees_cases limit w) as [[msg ->]|[_ ->]];
      eexists; (split; [reflexivity|]); [right|left]; by eexists.
  - intros employee_id.
    destruct (get_employee_by_id_cases employee_id w) as [[msg ->]| ->];
      eexists; (split; [reflexivity|]); [right; by eexists|left].
    destruct (head _) as [r|]; [right; by exists r|by left].
  - intros name position department salary.
    destruct (add_employee_cases name position department salary w)
      as [[msg ->]|(n & p & d & x & _ & _ & _ & _ & _ & _ & _ & _ & ->)];
      eexists; (split; [reflexivity|]); [right|left]; by eexists.
  - intros limit. unfold_tools. by run_tool.
  - intros employee_id. unfold_tools. by run_tool.
  - intros. by eapply add_employee_unreachable.
Qed.

Lemma tools_never_raise_witness :
  faults world_unreachable s_connect = Some timeout_error /\
  fst (list_employees 5 world_unreachable) =
    Ok (error_envelope
          "It was not possible to hire employees: connection timed out") /\
  fst (get_employee_by_id 1 world_unreachable) =
    Ok (error_envelope "Could not retrieve employee: connection timed out").
Proof.
  destruct (tools_never_raise world_unreachable) as (_ & _ & _ & H).
  destruct (H timeout_error eq_refl) as (Hlist & Hget & _).
  split; [reflexivity|]. split; [apply (Hlist 5)|apply (Hget 1)].
Defined.

(** C2, as the code has it.  [add_employee] checks name, position,
    department and salary in this order and the first failure decides the
    answer; the four envelopes differ, and their messages are
    "Employee name cannot be empty.", "Employee position cannot be
    empty.", "Employee department cannot be empty." and "Employee salary
    must be a positive number.".  The store is not touched. *)
Theorem add_employee_first_failure name position department salary w :
  (blank name ->
   add_employee name position department salary w =
     (Ok (error_envelope "Employee name cannot be empty."), w)) /\
  (nonblank name -> blank position ->
   add_employee name position department salary w =
     (Ok (error_envelope "Employee position cannot be empty."), w)) /\
  (nonblank name -> nonblank position -> blank department ->
   add_employee name position department salary w =
     (Ok (error_envelope "Employee department cannot be empty."), w)) /\
  (nonblank name -> nonblank position -> nonblank department ->
   le_zero salary = Some true ->
   add_employee name position department salary w =
     (Ok (error_envelope "Employee salary must be a positive number."), w)) /\
  NoDup ["Employee name cannot be empty.";
         "Employee position cannot be empty.";
         "Employee department cannot be empty.";
         "Employee salary must be a positive number."].
Proof.
  unfold blank, nonblank. repeat split.
  - intros (n & -> & Hn). apply is_empty_true in Hn.
    unfold_tools. cbn. rewrite Hn. by run_tool.
  - intros (n & -> & Hn) (p & -> & Hp).
    apply is_empty_false in Hn. apply is_empty_true in Hp.
    unfold_tools. cbn. rewrite Hn. cbn. rewrite Hp. by run_tool.
  - intros (n & -> & Hn) (p & -> & Hp) (d & -> & Hd).
    apply is_empty_false in Hn, Hp. apply is_empty_true in Hd.
    unfold_tools. cbn. rewrite Hn. cbn. rewrite Hp. cbn. rewrite Hd.
    by run_tool.
  - intros (n & -> & Hn) (p & -> & Hp) (d & -> & Hd) Hs.
    apply is_empty_false in Hn, Hp, Hd.
    unfold_tools. cbn. rewrite Hn. cbn. rewrite Hp. cbn. rewrite Hd, Hs.
    by run_tool.
  - apply (bool_decide_unpack _). by vm_compute.
Qed.

Lemma add_employee_first_failure_witness :
  add_employee (PyStr "  ") PyNone (PyStr "") (PyInt 0) world0 =
    (Ok (error_envelope "Employee name cannot be empty."), world0) /\
  add_employee (PyStr "Ada") (PyStr " ") PyNone (PyInt 0) world0 =
    (Ok (error_envelope "Employee position cannot be empty."), world0) /\
  add_employee (PyStr "Ada") (PyStr "Engineer") (PyStr "") (PyInt 0) world0 =
    (Ok (error_envelope "Employee department cannot be empty."), world0) /\
  add_employee (PyStr "Ada") (PyStr "Engineer") (PyStr "R&D") (PyInt 0) world0
    = (Ok (error_envelope "Employee salary must be a positive number."),
       world0).
Proof.
  assert (Hada : nonblank (PyStr "Ada")) by (by eexists).
  assert (Heng : nonblank (PyStr "Engineer")) by (by eexists).
  assert (Hrd : nonblank (PyStr "R&D")) by (by eexists).
  split; [|split; [|split]].
  - apply (add_employee_first_failure (PyStr "  ") PyNone (PyStr "")
             (PyInt 0) world0).
    by eexists.
  - apply (add_employee_first_failure (PyStr "Ada") (PyStr " ") PyNone
             (PyInt 0) world0); [done|by eexists].
  - apply (add_employee_first_failure (PyStr "Ada") (PyStr "Engineer")
             (PyStr "") (PyInt 0) world0); [done|done|by eexists].
  - by apply (add_employee_first_failure (PyStr "Ada") (PyStr "Engineer")
                (PyStr "R&D") (PyInt 0) world0).
Defined.

(** C2, as stated: the envelope of a blank name does not carry the
    message "name cannot be empty.". *)
Lemma add_employee_name_message :
  fst (add_employee (PyStr "  ") (PyStr "Engineer") (PyStr "R&D")
         (PyInt 100000) world0)
    = Ok (error_envelope "Employee name cannot be empty.") /\
  fst (add_employee (PyStr "  ") (PyStr "Engineer") (PyStr "R&D")
         (PyInt 100000) world0)
    <> Ok (error_envelope "name cannot be empty.").
Proof. split; [reflexivity|]. vm_compute. discriminate. Qed.

(** A call of [add_employee] that does not answer with the envelope went
    through the validation, submitted the one [INSERT ... RETURNING] and
    committed its row. *)
Lemma add_employee_success name position department salary w v w' :
  add_employee name position department salary w = (Ok v, w') ->
  ~ is_error_envelope v ->
  exists n p d x,
    name = PyStr n /\ position = PyStr p /\ department = PyStr d /\
    strip n <> "" /\ strip p <> "" /\ strip d <> "" /\
    le_zero salary = Some false /\ as_number salary = Some x /\
    v = added (hired n p d x w) /\
    w' = set_table (table w ++ [hired n p d x w])
           (set_sequence (sequence w + 1)
              (set_log
                 (log w ++ [(add_employee_sql,
                             [name; position; department; salary;
                              PyDatetime (clock w)])]) w)).
Proof.
  intros Hrun Hv.
  destruct (add_employee_cases name position department salary w)
    as [[msg Herr]|(n & p & d & x & Hn & Hp & Hd & ? & ? & ? & ? & ? & Hok)].
  - rewrite Hrun in Herr. injection Herr as ->. destruct Hv. by exists msg.
  - rewrite Hrun in Hok. injection Hok as -> ->. by exists n, p, d, x.
Qed.

(** C3.  A call of [add_employee] that succeeds passed the validation,
    submitted one statement, the [INSERT ... RETURNING], committed
    exactly the one row it describes (the generated [id] and the five
    columns), and returns that row under "employee" next to the message
    "Employee added successfully.".  [list_employees] and
    [get_employee_by_id] leave the committed rows as they are on every
    path. *)
Theorem add_employee_inserts_once (w : world) :
  (forall name position department salary v w',
     add_employee name position department salary w = (Ok v, w') ->
     ~ is_error_envelope v ->
     exists r,
       v = PyDict [("message", PyStr "Employee added successfully.");
                   ("employee", employee_record r)] /\
       table w' = table w ++ [r] /\
       log w' = log w ++ [(add_employee_sql,
                           [name; position; department; salary;
                            PyDatetime (clock w)])] /\
       emp_id r = sequence w /\
       PyStr (emp_name r) = name /\
       PyStr (emp_position r) = position /\
       PyStr (emp_department r) = department /\
       number_value (emp_salary r) = salary /\
       nonblank name /\ nonblank position /\ nonblank department /\
       le_zero salary = Some false) /\
  (forall limit, table (snd (list_employees limit w)) = table w) /\
  (forall employee_id,
     table (snd (get_employee_by_id employee_id w)) = table w).
Proof.
  split; [|split].
  - intros name position department salary v w' Hrun Hv.
    destruct (add_employee_success _ _ _ _ _ _ _ Hrun Hv)
      as (n & p & d & x & -> & -> & -> & Hn & Hp & Hd & Hs & Hx & -> & ->).
    exists (hired n p d x w). unfold nonblank. cbn.
    split; [done|]. split; [done|]. split; [done|]. split; [done|].
    split; [done|]. split; [done|]. split; [done|].
    split; [destruct salary; by simplify_eq/=|].
    split; [by eauto|]. split; [by eauto|]. split; [by eauto|]. done.
  - intros limit. apply list_employees_keeps_table.
  - intros employee_id. apply get_employee_by_id_keeps_table.
Qed.

Lemma add_employee_inserts_once_witness :
  let zed := Employee 4 "Zed" "Clerk" "Sales" (NInt 50000) 5000 in
  let run := add_employee (PyStr "Zed") (PyStr "Clerk") (PyStr "Sales")
               (PyInt 50000) world0 in
  fst run = Ok (added zed) /\
  exists r,
    table (snd run) = [ada; bob; eve] ++ [r] /\
    emp_id r = 4 /\
    log (snd run) =
      [(add_employee_sql,
        [PyStr "Zed"; PyStr "Clerk"; PyStr "Sales"; PyInt 50000;
         PyDatetime 5000])].
Proof.
  intros zed run. split; [reflexivity|].
  destruct (add_employee_inserts_once world0) as (Hone & _).
  destruct (Hone (PyStr "Zed") (PyStr "Clerk") (PyStr "Sales") (PyInt 50000)
              (added zed) (snd run))
    as (r & _ & Ht & Hlog & Hid & _).
  - vm_compute. reflexivity.
  - intros [msg Hmsg]. discriminate Hmsg.
  - exists r. split; [exact Ht|]. split; [exact Hid|exact Hlog].
Defined.

(** When nothing fails, the connection is closed by [conn.close()]. *)
Lemma list_employees_success_releases limit w v w' :
  list_employees limit w = (Ok v, w') -> ~ is_error_envelope v ->
  conns w' = conns w.
Proof.
  intros Hrun Hv.
  destruct (list_employees_cases limit w) as [[msg Herr]|[_ Hok]].
  - rewrite Hrun in Herr. injection Herr as ->. destruct Hv. by exists msg.
  - rewrite Hrun in Hok. by injection Hok as -> ->.
Qed.


(** C5.  For [limit >= 0], a call of [list_employees] that succeeds
    returns at most [limit] records, each with the keys [id], [name],
    [position], [department], [salary], [hire_date]; they are the first
    rows of the table ordered by [hire_date] descending; and the
    statement submitted is the fixed text, with [limit] as its one bound
    parameter. *)
Theorem list_employees_limit limit w v w' :
  0 <= limit ->
  list_employees limit w = (Ok v, w') ->
  ~ is_error_envelope v ->
  exists rows rest,
    v = PyList (map employee_record rows) /\
    Z.of_nat (length rows) <= limit /\
    StronglySorted hired_after rows /\
    StronglySorted hired_after (rows ++ rest) /\
    rows ++ rest ≡ₚ table w /\
    Forall (fun record =>
              dict_keys record =
                ["id"; "name"; "position"; "department"; "salary";
                 "hire_date"])
           (map employee_record rows) /\
    log w' = log w ++ [(list_employees_sql, [PyInt limit])].
Proof.
  intros Hlimit Hrun Hv.
  destruct (list_employees_cases limit w) as [[msg Herr]|[_ Hok]].
  { rewrite Hrun in Herr. injection Herr as ->. destruct Hv. by exists msg. }
  rewrite Hrun in Hok. injection Hok as -> ->.
  set (sorted := merge_sort hired_after (table w)).
  assert (Hsorted : StronglySorted hired_after sorted)
    by apply (StronglySorted_merge_sort _).
  exists (take (Z.to_nat limit) sorted), (drop (Z.to_nat limit) sorted).
  rewrite take_drop. repeat split.
  - rewrite length_take. lia.
  - rewrite <- (take_drop (Z.to_nat limit) sorted) in Hsorted.
    by apply StronglySorted_app_1_l in Hsorted.
  - done.
  - apply merge_sort_Permutation.
  - apply List.Forall_map. by apply Forall_true.
Qed.

Lemma list_employees_limit_witness :
  0 <= 2 /\
  exists rows rest,
    fst (list_employees 2 world0) = Ok (PyList (map employee_record rows)) /\
    Z.of_nat (length rows) <= 2 /\
    StronglySorted hired_after (rows ++ rest) /\
    rows ++ rest ≡ₚ [ada; bob; eve].
Proof.
  split; [lia|].
  destruct (list_employees_limit 2 world0
              (PyList (map employee_record [bob; eve]))
              (snd (list_employees 2 world0)))
    as (rows & rest & Hv & Hlen & _ & Hsorted & Hperm & _).
  - lia.
  - vm_compute. reflexivity.
  - intros [msg Hmsg]. discriminate Hmsg.
  - exists rows, rest. split; [|done].
    change (fst (list_employees 2 world0))
      with (Ok (PyList (map employee_record [bob; eve]))).
    by rewrite Hv.
Defined.

Lemma filter_no_match employee_id (rows : list employee) :
  (forall r, r ∈ rows -> emp_id r <> employee_id) ->
  filter (fun r => emp_id r = employee_id) rows = [].
Proof.
  intros Hno. induction rows as [|r rows IH]; [done|].
  rewrite filter_cons_False; [|apply Hno; left].
  apply IH. intros r' Hr'. apply Hno. by right.
Qed.

(** C6.  When no row has the identifier, whatever its sign, a call of
    [get_employee_by_id] against a store that answers returns [None],
    which is no envelope; the identifier travels unchecked as the bound
    parameter of the statement and nothing else changes.  If the store
    fails instead, the value is the envelope. *)
Theorem get_employee_by_id_absent employee_id w :
  (forall r, r ∈ table w -> emp_id r <> employee_id) ->
  ((forall s, faults w s = None) ->
   get_employee_by_id employee_id w =
     (Ok PyNone,
      set_log (log w ++ [(get_employee_sql, [PyInt employee_id])]) w)) /\
  (exists v, fst (get_employee_by_id employee_id w) = Ok v /\
             (v = PyNone \/ is_error_envelope v)) /\
  ~ is_error_envelope PyNone.
Proof.
  intros Hno. apply filter_no_match in Hno. split; [|split].
  - intros Hf. by rewrite get_employee_by_id_no_faults, Hno.
  - destruct (get_employee_by_id_cases employee_id w) as [[msg ->]| ->].
    + eexists. split; [done|]. right. by exists msg.
    + rewrite Hno. eexists. split; [done|]. by left.
  - intros [msg Hmsg]. discriminate Hmsg.
Qed.

Lemma get_employee_by_id_absent_witness :
  fst (get_employee_by_id (-3) world0) = Ok PyNone /\
  fst (get_employee_by_id 0 world0) = Ok PyNone /\
  log (snd (get_employee_by_id (-3) world0)) =
    [(get_employee_sql, [PyInt (-3)])].
Proof.
  assert (Hno : forall z, z <= 0 ->
                forall r, r ∈ table world0 -> emp_id r <> z).
  { intros z Hz r Hr. cbn in Hr. set_unfold. destruct Hr as [->|[->|[->|[]]]];
      cbn; lia. }
  destruct (get_employee_by_id_absent (-3) world0 (Hno (-3) ltac:(lia)))
    as (Hneg & _).
  destruct (get_employee_by_id_absent 0 world0 (Hno 0 ltac:(lia)))
    as (Hzero & _).
  rewrite Hneg, Hzero by done. done.
Defined.



(** C8.  In a call of [add_employee] that succeeds, the [hire_date] of
    the one row it commits is what [datetime.now()] read in the tool; the
    statement receives the caller's four values and that timestamp as its
    parameters, and the rows that were there keep theirs. *)
Theorem add_employee_hire_date name position department salary w v w' :
  add_employee name position department salary w = (Ok v, w') ->
  ~ is_error_envelope v ->
  exists r,
    table w' = table w ++ [r] /\
    emp_hire_date r = clock w /\
    v = added r /\
    log w' = log w ++ [(add_employee_sql,
                        [name; position; department; salary;
                         PyDatetime (clock w)])].
Proof.
  intros Hrun Hv.
  destruct (add_employee_success _ _ _ _ _ _ _ Hrun Hv)
    as (n & p & d & x & _ & _ & _ & _ & _ & _ & _ & _ & -> & ->).
  by exists (hired n p d x w).
Qed.

Lemma add_employee_hire_date_witness :
  exists r,
    table (snd (add_employee (PyStr "Zed") (PyStr "Clerk") (PyStr "Sales")
                  (PyInt 50000) world0)) = [ada; bob; eve] ++ [r] /\
    emp_hire_date r = 5000.
Proof.
  destruct (add_employee_hire_date (PyStr "Zed") (PyStr "Clerk")
              (PyStr "Sales") (PyInt 50000) world0
              (added (Employee 4 "Zed" "Clerk" "Sales" (NInt 50000) 5000))
              (snd (add_employee (PyStr "Zed") (PyStr "Clerk")
                      (PyStr "Sales") (PyInt 50000) world0)))
    as (r & Htable & Hdate & _).
  - vm_compute. reflexivity.
  - intros [msg Hmsg]. discriminate Hmsg.
  - exists r. split; [exact Htable|exact Hdate].
Defined.

(** C9, as stated: with [limit = -1] a store that answers refuses the
    statement, and [list_employees] returns the envelope, not the empty
    list. *)
Lemma list_employees_negative_limit :
  (forall s, faults world0 s = None) /\
  fst (list_employees (-1) world0) =
    Ok (error_envelope
          ("It was not possible to hire employees: "
           +:+ "LIMIT must not be negative" +:+ nl)) /\
  fst (list_employees (-1) world0) <> Ok (PyList []).
Proof. split; [done|]. split; [reflexivity|]. vm_compute. discriminate. Qed.

(** C9, as the code has it.  [list_employees] does not check [limit]:
    against a store that answers, the value travels unchanged as the
    bound parameter of the statement.  For [limit = 0] the answer is the
    empty list; for [limit < 0] PostgreSQL refuses the statement and the
    answer is the envelope. *)
Theorem list_employees_limit_passthrough limit w :
  (forall s, faults w s = None) ->
  limit <= 0 ->
  log (snd (list_employees limit w)) =
    log w ++ [(list_employees_sql, [PyInt limit])] /\
  (limit = 0 -> fst (list_employees limit w) = Ok (PyList [])) /\
  (limit < 0 ->
   fst (list_employees limit w) =
     Ok (error_envelope
           ("It was not possible to hire employees: "
            +:+ "LIMIT must not be negative" +:+ nl))).
Proof.
  intros Hf Hlimit.
  destruct (list_employees_no_faults w Hf limit) as [Hv Hlog].
  split; [done|]. rewrite Hv. split.
  - by intros ->.
  - intros Hneg. by rewrite (proj2 (Z.ltb_lt limit 0) Hneg).
Qed.

Lemma list_employees_limit_passthrough_witness :
  fst (list_employees 0 world0) = Ok (PyList []) /\
  log (snd (list_employees 0 world0)) = [(list_employees_sql, [PyInt 0])].
Proof.
  destruct (list_employees_limit_passthrough 0 world0) as (Hlog & Hzero & _).
  - reflexivity.
  - lia.
  - split; [by apply Hzero|exact Hlog].
Defined.

(** C10.  When a check of the validation raises, [add_employee] returns
    an envelope whose message starts with "Could not add employee: " and
    is none of the four messages of the validation, and the world is the
    one it started in: nothing was inserted. *)
Theorem add_employee_validation_raises name position department salary w :
  validation_raises name position department salary ->
  exists cause,
    add_employee name position department salary w =
      (Ok (error_envelope ("Could not add employee: " +:+ cause)), w) /\
    "Could not add employee: " +:+ cause ∉
      ["Employee name cannot be empty.";
       "Employee position cannot be empty.";
       "Employee department cannot be empty.";
       "Employee salary must be a positive number."].
Proof.
  assert (Hother : forall cause,
    "Could not add employee: " +:+ cause ∉
      ["Employee name cannot be empty.";
       "Employee position cannot be empty.";
       "Employee department cannot be empty.";
       "Employee salary must be a positive number."]).
  { intros cause. cbn. set_unfold. intros [H|[H|[H|[H|[]]]]]; discriminate H. }
  unfold validation_raises, nonblank, not_str.
  intros [Hn|[((n & -> & Hn) & Hp)|[((n & -> & Hn) & (p & -> & Hp) & Hd)|
          ((n & -> & Hn) & (p & -> & Hp) & (d & -> & Hd) & Hs)]]];
    try apply is_empty_false in Hn; try apply is_empty_false in Hp;
    try apply is_empty_false in Hd.
  - unfold_tools.
    destruct name as [| | | |n| | |]; try (eexists; cbn; rewrite release_frame_id; by split).
    by destruct (Hn n).
  - unfold_tools. cbn. rewrite Hn. cbn.
    destruct position as [| | | |p| | |]; try (eexists; cbn; rewrite release_frame_id; by split).
    by destruct (Hp p).
  - unfold_tools. cbn. rewrite Hn. cbn. rewrite Hp. cbn.
    destruct department as [| | | |d| | |]; try (eexists; cbn; rewrite release_frame_id; by split).
    by destruct (Hd d).
  - unfold_tools. cbn. rewrite Hn. cbn. rewrite Hp. cbn. rewrite Hd, Hs. cbn.
    rewrite release_frame_id. eexists; by split.
Qed.

Lemma add_employee_validation_raises_witness :
  add_employee PyNone (PyStr "Engineer") (PyStr "R&D") (PyInt 100000) world0
    = (Ok (error_envelope
             ("Could not add employee: "
              +:+ "'NoneType' object has no attribute 'strip'")), world0) /\
  add_employee (PyStr "Ada") (PyStr "Engineer") (PyStr "R&D") (PyStr "high")
    world0
    = (Ok (error_envelope
             ("Could not add employee: " +:+ "'<=' not supported between "
              +:+ "instances of 'str' and 'int'")), world0).
Proof.
  split.
  - destruct (add_employee_validation_raises PyNone (PyStr "Engineer")
                (PyStr "R&D") (PyInt 100000) world0) as (cause & Hrun & _).
    + left. intros s. discriminate.
    + rewrite Hrun. vm_compute in Hrun. by injection Hrun as <-.
  - destruct (add_employee_validation_raises (PyStr "Ada") (PyStr "Engineer")
                (PyStr "R&D") (PyStr "high") world0) as (cause & Hrun & _).
    + right. right. right. unfold nonblank. by eauto 10.
    + rewrite Hrun. vm_compute in Hrun. by injection Hrun as <-.
Defined.

(** ** Further properties of the tools *)

Lemma filter_unique_id (rows : list employee) r :
  NoDup (emp_id <$> rows) -> r ∈ rows ->
  filter (fun r' => emp_id r' = emp_id r) rows = [r].
Proof.
  induction rows as [|r0 rows IH]; [by intros _ ?%elem_of_nil|].
  rewrite fmap_cons, NoDup_cons. intros [Hfresh Hrows] Hr.
  apply elem_of_cons in Hr as [->|Hr].
  - rewrite filter_cons_True by done. f_equal.
    apply filter_no_match. intros r' Hr' Hid. apply Hfresh.
    rewrite <- Hid. by apply list_elem_of_fmap_2.
  - rewrite filter_cons_False; [by apply IH|].
    intros Hid. apply Hfresh. rewrite Hid. by apply list_elem_of_fmap_2.
Qed.

(** X1.  When the identifiers of the table are pairwise distinct and a
    row has the one asked for, [get_employee_by_id] against a store that
    answers returns the record of that row, and the call leaves nothing
    but its statement behind. *)
Theorem get_employee_by_id_found employee_id r w :
  (forall s, faults w s = None) ->
  NoDup (emp_id <$> table w) ->
  r ∈ table w -> emp_id r = employee_id ->
  get_employee_by_id employee_id w =
    (Ok (employee_record r),
     set_log (log w ++ [(get_employee_sql, [PyInt employee_id])]) w).
Proof.
  intros Hf Hids Hr <-.
  by rewrite (get_employee_by_id_no_faults w Hf), filter_unique_id.
Qed.

Lemma get_employee_by_id_found_witness :
  fst (get_employee_by_id 2 world0) = Ok (employee_record bob).
Proof.
  rewrite (get_employee_by_id_found 2 bob world0);
    [done|done| |by set_solver|done].
  cbn. apply (bool_decide_unpack _). by vm_compute.
Defined.

(** X2.  Adding and reading back: when no row carries the identifier
    that the sequence hands out next, the record that a successful
    [add_employee] returns is the one that [get_employee_by_id] then
    returns for its [id], against a store that answers. *)
Theorem add_then_get name position department salary w v w' :
  add_employee name position department salary w = (Ok v, w') ->
  ~ is_error_envelope v ->
  (forall s, faults w s = None) ->
  (forall r, r ∈ table w -> emp_id r <> sequence w) ->
  exists r,
    v = added r /\ emp_id r = sequence w /\
    fst (get_employee_by_id (emp_id r) w') = Ok (employee_record r).
Proof.
  intros Hrun Hv Hf Hnew.
  destruct (add_employee_success _ _ _ _ _ _ _ Hrun Hv)
    as (n & p & d & x & _ & _ & _ & _ & _ & _ & _ & _ & -> & ->).
  exists (hired n p d x w). split; [done|]. split; [done|].
  rewrite get_employee_by_id_no_faults by done. cbn.
  rewrite filter_app, (filter_no_match _ _ Hnew).
  by rewrite filter_cons_True.
Qed.

Lemma add_then_get_witness :
  let run := add_employee (PyStr "Zed") (PyStr "Clerk") (PyStr "Sales")
               (PyInt 50000) world0 in
  exists r,
    fst run = Ok (added r) /\ emp_id r = 4 /\
    fst (get_employee_by_id 4 (snd run)) = Ok (employee_record r).
Proof.
  intros run.
  destruct (add_then_get (PyStr "Zed") (PyStr "Clerk") (PyStr "Sales")
              (PyInt 50000) world0
              (added (Employee 4 "Zed" "Clerk" "Sales" (NInt 50000) 5000))
              (snd run))
    as (r & Hv & Hid & Hget).
  - vm_compute. reflexivity.
  - intros [msg Hmsg]. discriminate Hmsg.
  - done.
  - intros r Hr. cbn in Hr. set_unfold.
    destruct Hr as [->|[->|[->|[]]]]; cbn; lia.
  - exists r. split; [rewrite <- Hv; vm_compute; reflexivity|].
    split; [exact Hid|]. change 4 with (sequence world0).
    rewrite <- Hid. exact Hget.
Defined.

Lemma newest_first (rows : list employee) r :
  (forall r', r' ∈ rows -> emp_hire_date r' < emp_hire_date r) ->
  take 1 (merge_sort hired_after (rows ++ [r])) = [r].
Proof.
  intros Hnew.
  pose proof (StronglySorted_merge_sort hired_after (rows ++ [r])) as Hsorted.
  pose proof (merge_sort_Permutation hired_after (rows ++ [r])) as Hperm.
  destruct (merge_sort hired_after (rows ++ [r])) as [|x sorted].
  { apply Permutation_nil_l in Hperm. by destruct rows. }
  cbn. f_equal.
  assert (Hx : x ∈ rows ++ [r]) by (rewrite <- Hperm; left).
  apply elem_of_app in Hx as [Hx|Hx]; [|by apply list_elem_of_singleton in Hx].
  assert (Hr : r ∈ x :: sorted) by (rewrite Hperm; set_solver).
  apply elem_of_cons in Hr as [->|Hr]; [done|].
  apply StronglySorted_cons in Hsorted as [Hall _].
  rewrite Forall_forall in Hall. specialize (Hall r Hr) as Hle.
  specialize (Hnew x Hx). unfold hired_after in Hle. lia.
Qed.

(** X3.  Adding and listing: when the clock is past the [hire_date] of
    every row, the employee that a successful [add_employee] returns is
    the one that [list_employees(1)] then returns, against a store that
    answers. *)
Theorem add_then_list_newest name position department salary w v w' :
  add_employee name position department salary w = (Ok v, w') ->
  ~ is_error_envelope v ->
  (forall s, faults w s = None) ->
  (forall r, r ∈ table w -> emp_hire_date r < clock w) ->
  exists r,
    v = added r /\
    fst (list_employees 1 w') = Ok (PyList [employee_record r]).
Proof.
  intros Hrun Hv Hf Hnew.
  destruct (add_employee_success _ _ _ _ _ _ _ Hrun Hv)
    as (n & p & d & x & _ & _ & _ & _ & _ & _ & _ & _ & -> & ->).
  exists (hired n p d x w). split; [done|].
  destruct (list_employees_no_faults
              (set_table (table w ++ [hired n p d x w])
                 (set_sequence (sequence w + 1)
                    (set_log
                       (log w ++ [(add_employee_sql,
                                   [name; position; department; salary;
                                    PyDatetime (clock w)])]) w)))
              Hf 1) as [-> _].
  cbn [table set_table]. change (Z.to_nat 1) with 1%nat.
  by rewrite newest_first.
Qed.

Lemma add_then_list_newest_witness :
  let run := add_employee (PyStr "Zed") (PyStr "Clerk") (PyStr "Sales")
               (PyInt 50000) world0 in
  exists r,
    fst run = Ok (added r) /\
    fst (list_employees 1 (snd run)) = Ok (PyList [employee_record r]).
Proof.
  intros run.
  destruct (add_then_list_newest (PyStr "Zed") (PyStr "Clerk")
              (PyStr "Sales") (PyInt 50000) world0
              (added (Employee 4 "Zed" "Clerk" "Sales" (NInt 50000) 5000))
              (snd run))
    as (r & Hv & Hlist).
  - vm_compute. reflexivity.
  - intros [msg Hmsg]. discriminate Hmsg.
  - done.
  - intros r Hr. cbn in Hr. set_unfold.
    destruct Hr as [->|[->|[->|[]]]]; cbn; lia.
  - exists r. split; [rewrite <- Hv; vm_compute; reflexivity|exact Hlist].
Defined.

(** X4.  Two calls of [add_employee] that succeed one after the other
    commit two rows, in this order, under different identifiers. *)
Theorem add_twice name1 position1 department1 salary1
    name2 position2 department2 salary2 w v1 w1 v2 w2 :
  add_employee name1 position1 department1 salary1 w = (Ok v1, w1) ->
  ~ is_error_envelope v1 ->
  add_employee name2 position2 department2 salary2 w1 = (Ok v2, w2) ->
  ~ is_error_envelope v2 ->
  exists r1 r2,
    v1 = added r1 /\ v2 = added r2 /\
    emp_id r1 <> emp_id r2 /\
    table w2 = table w ++ [r1; r2].
Proof.
  intros Hrun1 Hv1 Hrun2 Hv2.
  destruct (add_employee_success _ _ _ _ _ _ _ Hrun1 Hv1)
    as (n1 & p1 & d1 & x1 & _ & _ & _ & _ & _ & _ & _ & _ & -> & ->).
  destruct (add_employee_success _ _ _ _ _ _ _ Hrun2 Hv2)
    as (n2 & p2 & d2 & x2 & _ & _ & _ & _ & _ & _ & _ & _ & -> & ->).
  eexists _, _. split; [done|]. split; [done|]. cbn.
  split; [lia|]. by rewrite <- app_assoc.
Qed.

Lemma add_twice_witness :
  let run1 := add_employee (PyStr "Zed") (PyStr "Clerk") (PyStr "Sales")
                (PyInt 50000) world0 in
  let run2 := add_employee (PyStr "Yan") (PyStr "Nurse") (PyStr "Care")
                (PyInt 60000) (snd run1) in
  exists r1 r2,
    fst run1 = Ok (added r1) /\ fst run2 = Ok (added r2) /\
    emp_id r1 <> emp_id r2 /\
    table (snd run2) = [ada; bob; eve] ++ [r1; r2].
Proof.
  intros run1 run2.
  destruct (add_twice (PyStr "Zed") (PyStr "Clerk") (PyStr "Sales")
              (PyInt 50000) (PyStr "Yan") (PyStr "Nurse") (PyStr "Care")
              (PyInt 60000) world0
              (added (Employee 4 "Zed" "Clerk" "Sales" (NInt 50000) 5000))
              (snd run1)
              (added (Employee 5 "Yan" "Nurse" "Care" (NInt 60000) 5000))
              (snd run2))
    as (r1 & r2 & Hv1 & Hv2 & Hids & Htable).
  - vm_compute. reflexivity.
  - intros [msg Hmsg]. discriminate Hmsg.
  - vm_compute. reflexivity.
  - intros [msg Hmsg]. discriminate Hmsg.
  - exists r1, r2.
    split; [rewrite <- Hv1; vm_compute; reflexivity|].
    split; [rewrite <- Hv2; vm_compute; reflexivity|].
    split; [exact Hids|exact Htable].
Defined.

(** X5.  No partial commit: when a call to the store fails no later than
    the commit, [add_employee] leaves the committed rows as they were,
    whatever its arguments. *)
Theorem add_employee_no_partial_commit name position department salary w s e :
  s <> s_cursor_close -> s <> s_close ->
  faults w s = Some e ->
  table (snd (add_employee name position department salary w)) = table w.
Proof.
  intros Hcursor Hclose He.
  destruct s; try done; unfold_tools; run_paths; reflexivity.
Qed.

Lemma add_employee_no_partial_commit_witness :
  table (snd (add_employee (PyStr "Zed") (PyStr "Clerk") (PyStr "Sales")
                (PyInt 50000) world_commit_fails)) = [ada; bob; eve].
Proof.
  apply (add_employee_no_partial_commit (PyStr "Zed") (PyStr "Clerk")
           (PyStr "Sales") (PyInt 50000) world_commit_fails s_commit
           timeout_error); [discriminate|discriminate|reflexivity].
Defined.

(** X6.  Committed, yet reported as failed: when every call to the store
    succeeds except the closing of the cursor or of the connection,
    [add_employee] returns the envelope with that failure, and the row
    is committed all the same. *)
Theorem add_employee_committed_then_failed n p d salary x w s e :
  s = s_cursor_close \/ s = s_close ->
  faults w s = Some e ->
  (forall s', s' <> s -> faults w s' = None) ->
  strip n <> "" -> strip p <> "" -> strip d <> "" ->
  has_nul n = false -> has_nul p = false -> has_nul d = false ->
  le_zero salary = Some false -> as_number salary = Some x ->
  fst (add_employee (PyStr n) (PyStr p) (PyStr d) salary w) =
    Ok (error_envelope ("Could not add employee: " +:+ exn_str e)) /\
  table (snd (add_employee (PyStr n) (PyStr p) (PyStr d) salary w)) =
    table w ++ [hired n p d x w].
Proof.
  intros Hs He Hf Hn Hp Hd Hn0 Hp0 Hd0 Hsal Hx.
  apply is_empty_false in Hn, Hp, Hd.
  pose proof (adaptable_arguments n p d salary x Hn0 Hp0 Hd0 Hx) as Ha.
  assert (Hconnect : faults w s_connect = None)
    by (apply Hf; destruct Hs as [-> | ->]; discriminate).
  assert (Hcursor : faults w s_cursor = None)
    by (apply Hf; destruct Hs as [-> | ->]; discriminate).
  assert (Hexecute : faults w s_execute = None)
    by (apply Hf; destruct Hs as [-> | ->]; discriminate).
  assert (Hfetch : faults w s_fetch = None)
    by (apply Hf; destruct Hs as [-> | ->]; discriminate).
  assert (Hcommit : faults w s_commit = None)
    by (apply Hf; destruct Hs as [-> | ->]; discriminate).
  destruct Hs as [-> | ->].
  - assert (Hclose : faults w s_close = None) by (by apply Hf).
    unfold_tools. cbn. rewrite Hn. cbn. rewrite Hp. cbn. rewrite Hd, Hsal.
    run_tool; by simplify_eq.
  - assert (Hclose : faults w s_cursor_close = None) by (by apply Hf).
    unfold_tools. cbn. rewrite Hn. cbn. rewrite Hp. cbn. rewrite Hd, Hsal.
    run_tool; by simplify_eq.
Qed.

Lemma add_employee_committed_then_failed_witness :
  let run := add_employee (PyStr "Zed") (PyStr "Clerk") (PyStr "Sales")
               (PyInt 50000) world_close_fails in
  fst run =
    Ok (error_envelope "Could not add employee: connection timed out") /\
  table (snd run) =
    [ada; bob; eve; Employee 4 "Zed" "Clerk" "Sales" (NInt 50000) 5000].
Proof.
  apply (add_employee_committed_then_failed "Zed" "Clerk" "Sales"
           (PyInt 50000) (NInt 50000) world_close_fails s_close
           timeout_error);
    [by right|reflexivity|by intros []|discriminate|discriminate|discriminate
    |reflexivity|reflexivity|reflexivity|reflexivity|reflexivity].
Defined.



Ltac unfold_bodies :=
  unfold list_employees_body, get_employee_by_id_body, add_employee_body,
    try_except, get_db_connection, connect, with_cursor, conn_cursor,
    cursor_execute, cursor_fetchall, cursor_fetchone, cursor_close,
    conn_commit, conn_close, datetime_now, py_strip, py_le_zero, bind, ret,
    raise, fault.

(** X8.  [conn.close()] is reached on the path that does not raise, and
    on no other.  When the body of a tool has run up to its [return],
    after a successful connect, the connection is closed exactly when
    the value to return is not the envelope; on every raising path the
    except clause builds the envelope with the connection still open,
    and closing it is left to the release of the frame.  For
    [add_employee] this is for arguments that pass the validation. *)
Theorem explicit_close_only_without_error w :
  faults w s_connect = None ->
  (forall limit, exists v,
     fst (list_employees_body limit w) = Ok v /\
     ((is_error_envelope v /\
       is_Some (conns (snd (list_employees_body limit w))
                  !! fresh (dom (conns w)))) \/
      (is_employee_list v /\
       conns (snd (list_employees_body limit w)) = conns w))) /\
  (forall employee_id, exists v,
     fst (get_employee_by_id_body employee_id w) = Ok v /\
     ((is_error_envelope v /\
       is_Some (conns (snd (get_employee_by_id_body employee_id w))
                  !! fresh (dom (conns w)))) \/
      (is_employee_or_none v /\
       conns (snd (get_employee_by_id_body employee_id w)) = conns w))) /\
  (forall name position department salary,
     nonblank name -> nonblank position -> nonblank department ->
     le_zero salary = Some false ->
     exists v,
       fst (add_employee_body name position department salary w) = Ok v /\
       ((is_error_envelope v /\
         is_Some (conns (snd (add_employee_body name position department
                                salary w))
                    !! fresh (dom (conns w)))) \/
        (is_added v /\
         conns (snd (add_employee_body name position department salary w))
         = conns w))).
Proof.
  intros Hconnect. split; [|split].
  - intros limit. unfold_bodies. run_paths;
      (eexists; split; [reflexivity|]);
      first [ left; split; [by eexists|by eexists]
            | right; split; [by eexists|];
              by rewrite ?conn_delete_insert, ?conn_delete_fresh ].
  - intros employee_id. unfold_bodies. run_paths;
      (eexists; split; [reflexivity|]);
      first [ left; split; [by eexists|by eexists]
            | right; split; [first [by left|right; by eexists]|];
              by rewrite ?conn_delete_insert, ?conn_delete_fresh ].
  - intros name position department salary
      (n & -> & Hn) (p & -> & Hp) (d & -> & Hd) Hs.
    apply is_empty_false in Hn, Hp, Hd.
    unfold_bodies. cbn. rewrite Hn. cbn. rewrite Hp. cbn. rewrite Hd, Hs.
    run_paths;
      (eexists; split; [reflexivity|]);
      first [ left; split; [by eexists|by eexists]
            | right; split; [by eexists|];
              by rewrite ?conn_delete_insert, ?conn_delete_fresh ].
Qed.

Lemma explicit_close_only_without_error_witness :
  exists v,
    fst (list_employees_body 5 world_execute_fails) = Ok v /\
    ((is_error_envelope v /\
      is_Some (conns (snd (list_employees_body 5 world_execute_fails))
                 !! fresh (dom (conns world_execute_fails)))) \/
     (is_employee_list v /\
      conns (snd (list_employees_body 5 world_execute_fails))
      = conns world_execute_fails)).
Proof.
  apply (explicit_close_only_without_error world_execute_fails). reflexivity.
Defined.

(** X9.  One statement per call at most: on every path a tool either
    submits nothing or submits its own statement once, with its
    arguments as the bound parameters. *)
Theorem one_statement_per_call w :
  (forall limit,
     log (snd (list_employees limit w)) = log w \/
     log (snd (list_employees limit w)) =
       log w ++ [(list_employees_sql, [PyInt limit])]) /\
  (forall employee_id,
     log (snd (get_employee_by_id employee_id w)) = log w \/
     log (snd (get_employee_by_id employee_id w)) =
       log w ++ [(get_employee_sql, [PyInt employee_id])]) /\
  (forall name position department salary,
     log (snd (add_employee name position department salary w)) = log w \/
     log (snd (add_employee name position department salary w)) =
       log w ++ [(add_employee_sql,
                  [name; position; department; salary;
                   PyDatetime (clock w)])]).
Proof.
  split; [|split]; intros; unfold_tools; run_paths;
    first [left; reflexivity|right; reflexivity].
Qed.

(** The calls that did not fail, one hypothesis each. *)
Ltac other_steps w Hf :=
  try (assert (faults w s_connect = None) by (apply Hf; discriminate));
  try (assert (faults w s_cursor = None) by (apply Hf; discriminate));
  try (assert (faults w s_execute = None) by (apply Hf; discriminate));
  try (assert (faults w s_fetch = None) by (apply Hf; discriminate));
  try (assert (faults w s_commit = None) by (apply Hf; discriminate));
  try (assert (faults w s_cursor_close = None) by (apply Hf; discriminate));
  try (assert (faults w s_close = None) by (apply Hf; discriminate)).

(** X10.  The cause is reported: when exactly one call to the store
    fails, and the tool makes that call, the tool answers with the
    envelope whose message is its own prefix followed by [str(e)] of
    that failure. *)
Theorem failure_cause_reported w s e :
  faults w s = Some e ->
  (forall s', s' <> s -> faults w s' = None) ->
  (s <> s_commit ->
   forall limit, 0 <= limit <= int8_max ->
     fst (list_employees limit w) =
       Ok (error_envelope
             ("It was not possible to hire employees: " +:+ exn_str e))) /\
  (s <> s_commit ->
   forall employee_id,
     fst (get_employee_by_id employee_id w) =
       Ok (error_envelope ("Could not retrieve employee: " +:+ exn_str e))) /\
  (forall n p d salary x,
     strip n <> "" -> strip p <> "" -> strip d <> "" ->
     has_nul n = false -> has_nul p = false -> has_nul d = false ->
     le_zero salary = Some false -> as_number salary = Some x ->
     fst (add_employee (PyStr n) (PyStr p) (PyStr d) salary w) =
       Ok (error_envelope ("Could not add employee: " +:+ exn_str e))).
Proof.
  intros He Hf. split; [|split].
  - intros Hs limit Hlimit. unfold int8_max in Hlimit.
    destruct s; try done; other_steps w Hf; unfold_tools; run_paths;
      first [reflexivity|unfold int8_max in *; lia].
  - intros Hs employee_id.
    destruct s; try done; other_steps w Hf; unfold_tools; run_paths;
      reflexivity.
  - intros n p d salary x Hn Hp Hd Hn0 Hp0 Hd0 Hsal Hx.
    apply is_empty_false in Hn, Hp, Hd.
    pose proof (adaptable_arguments n p d salary x Hn0 Hp0 Hd0 Hx) as Ha.
    destruct s; other_steps w Hf; unfold_tools; cbn; rewrite Hn; cbn;
      rewrite Hp; cbn; rewrite Hd, Hsal; run_tool; by simplify_eq.
Qed.

Lemma failure_cause_reported_witness :
  fst (add_employee (PyStr "Zed") (PyStr "Clerk") (PyStr "Sales")
         (PyInt 50000) world_commit_fails) =
    Ok (error_envelope "Could not add employee: connection timed out") /\
  fst (get_employee_by_id 2 world_execute_fails) =
    Ok (error_envelope "Could not retrieve employee: connection timed out").
Proof.
  split.
  - apply (failure_cause_reported world_commit_fails s_commit timeout_error
             eq_refl) with (x := NInt 50000);
      [by intros []|discriminate|discriminate|discriminate
      |reflexivity|reflexivity|reflexivity|reflexivity|reflexivity].
  - apply (failure_cause_reported world_execute_fails s_execute
             timeout_error eq_refl); [by intros []|discriminate].
Defined.

(** X11.  A failure of the cursor's close hides the one before it: when
    the statement fails and leaving the [with] block fails too, the
    envelope carries the message of the second failure. *)
Theorem close_failure_hides_cause w e e' :
  faults w s_connect = None -> faults w s_cursor = None ->
  faults w s_execute = Some e -> faults w s_cursor_close = Some e' ->
  (forall limit,
     fst (list_employees limit w) =
       Ok (error_envelope
             ("It was not possible to hire employees: " +:+ exn_str e'))) /\
  (forall employee_id,
     fst (get_employee_by_id employee_id w) =
       Ok (error_envelope ("Could not retrieve employee: " +:+ exn_str e'))) /\
  (forall name position department salary,
     nonblank name -> nonblank position -> nonblank department ->
     le_zero salary = Some false ->
     fst (add_employee name position department salary w) =
       Ok (error_envelope ("Could not add employee: " +:+ exn_str e'))).
Proof.
  intros Hconnect Hcursor Hexecute Hclose. split; [|split].
  - intros limit. unfold_tools. by run_tool.
  - intros employee_id. unfold_tools. by run_tool.
  - intros name position department salary
      (n & -> & Hn) (p & -> & Hp) (d & -> & Hd) Hs.
    apply is_empty_false in Hn, Hp, Hd.
    unfold_tools. cbn. rewrite Hn. cbn. rewrite Hp. cbn. rewrite Hd, Hs.
    by run_tool.
Qed.

Lemma close_failure_hides_cause_witness :
  fst (list_employees 5 world_statement_and_cursor_fail) =
    Ok (error_envelope
          ("It was not possible to hire employees: "
           +:+ "server closed the connection unexpectedly")).
Proof.
  by apply (close_failure_hides_cause world_statement_and_cursor_fail
              timeout_error server_gone).
Defined.

Lemma lstrip_all_space s : all_space s = true -> lstrip s = "".
Proof.
  induction s as [|a s IH]; [done|]. cbn.
  intros [Ha Hs]%andb_true_iff. rewrite Ha. by apply IH.
Qed.

Lemma all_space_lstrip s : all_space (lstrip s) = true -> all_space s = true.
Proof.
  induction s as [|a s IH]; [done|]. cbn.
  destruct (is_space a) eqn:Ha; [apply IH|]. cbn. by rewrite Ha.
Qed.

Lemma all_space_rstrip s : rstrip s = "" -> all_space s = true.
Proof.
  induction s as [|a s IH]; [done|]. cbn.
  destruct (is_space a); [|done]. cbn.
  destruct (rstrip s); [by intros _; apply IH|done].
Qed.

Lemma strip_empty s : strip s = "" <-> all_space s = true.
Proof.
  unfold strip. split.
  - intros Hs. by apply all_space_lstrip, all_space_rstrip.
  - intros Hs. by rewrite lstrip_all_space.
Qed.

(** X12.  [add_employee] answers "Employee name cannot be empty."
    exactly when the name, a [str], consists of white space only (the
    empty string included), whatever the other arguments and the store
    do. *)
Theorem name_rejected_iff_white n position department salary w :
  fst (add_employee (PyStr n) position department salary w) =
    Ok (error_envelope "Employee name cannot be empty.")
  <-> all_space n = true.
Proof.
  rewrite <- strip_empty, <- is_empty_true.
  destruct (is_empty (strip n)) eqn:Hn.
  - split; [done|intros _]. unfold_tools. cbn. by rewrite Hn.
  - split; [|done]. unfold_tools. cbn. rewrite Hn.
    run_paths; by intros [=].
Qed.

(** X13.  With a name, a position and a department that are not blank,
    [add_employee] answers "Employee salary must be a positive number."
    exactly when [salary <= 0] evaluates to [True]; a salary for which
    the comparison is [False], as it is for NaN, goes on to the store. *)
Theorem salary_rejected_iff_le_zero name position department salary w :
  nonblank name -> nonblank position -> nonblank department ->
  (fst (add_employee name position department salary w) =
     Ok (error_envelope "Employee salary must be a positive number.")
   <-> le_zero salary = Some true) /\
  (le_zero salary = Some false ->
   faults w s_connect = None -> faults w s_cursor = None ->
   log (snd (add_employee name position department salary w)) =
     log w ++ [(add_employee_sql,
                [name; position; department; salary;
                 PyDatetime (clock w)])]).
Proof.
  intros (n & -> & Hn) (p & -> & Hp) (d & -> & Hd).
  apply is_empty_false in Hn, Hp, Hd. split.
  - destruct (le_zero salary) as [[]|] eqn:Hs.
    + split; [done|intros _].
      unfold_tools. cbn. rewrite Hn. cbn. rewrite Hp. cbn. by rewrite Hd, Hs.
    + split; [|done].
      unfold_tools. cbn. rewrite Hn. cbn. rewrite Hp. cbn. rewrite Hd, Hs.
      run_paths; by intros [=].
    + split; [|done].
      unfold_tools. cbn. rewrite Hn. cbn. rewrite Hp. cbn. rewrite Hd, Hs.
      by intros [=].
  - intros Hs Hconnect Hcursor.
    unfold_tools. cbn. rewrite Hn. cbn. rewrite Hp. cbn. rewrite Hd, Hs.
    run_paths; reflexivity.
Qed.

Lemma salary_rejected_iff_le_zero_witness :
  fst (add_employee (PyStr "Zed") (PyStr "Clerk") (PyStr "Sales")
         (PyFloat (S754_zero true)) world0) =
    Ok (error_envelope "Employee salary must be a positive number.") /\
  log (snd (add_employee (PyStr "Zed") (PyStr "Clerk") (PyStr "Sales")
              (PyFloat S754_nan) world0)) =
    [(add_employee_sql,
      [PyStr "Zed"; PyStr "Clerk"; PyStr "Sales"; PyFloat S754_nan;
       PyDatetime 5000])].
Proof.
  assert (Hzed : nonblank (PyStr "Zed")) by (by eexists).
  assert (Hclerk : nonblank (PyStr "Clerk")) by (by eexists).
  assert (Hsales : nonblank (PyStr "Sales")) by (by eexists).
  split.
  - by apply (salary_rejected_iff_le_zero (PyStr "Zed") (PyStr "Clerk")
                (PyStr "Sales") (PyFloat (S754_zero true)) world0).
  - by apply (salary_rejected_iff_le_zero (PyStr "Zed") (PyStr "Clerk")
                (PyStr "Sales") (PyFloat S754_nan) world0).
Defined.

(** X15.  A limit that the table does not reach returns every row: against
    a store that answers, with [len(table) <= limit] within [bigint],
    [list_employees] returns the records of all rows, ordered by
    [hire_date] descending. *)
Theorem list_employees_whole_table limit w :
  (forall s, faults w s = None) ->
  Z.of_nat (length (table w)) <= limit <= int8_max ->
  exists rows,
    fst (list_employees limit w) = Ok (PyList (map employee_record rows)) /\
    rows ≡ₚ table w /\
    StronglySorted hired_after rows.
Proof.
  intros Hf [Hsize Hmax].
  destruct (list_employees_no_faults w Hf limit) as [-> _].
  rewrite (proj2 (Z.ltb_ge limit 0)) by lia.
  rewrite (proj2 (Z.ltb_ge int8_max limit)) by lia.
  exists (merge_sort hired_after (table w)).
  split; [|split].
  - rewrite take_ge; [done|].
    rewrite (merge_sort_Permutation hired_after (table w)). lia.
  - apply merge_sort_Permutation.
  - apply (StronglySorted_merge_sort _).
Qed.

Lemma list_employees_whole_table_witness :
  exists rows,
    fst (list_employees 5 world0) = Ok (PyList (map employee_record rows)) /\
    rows ≡ₚ [ada; bob; eve] /\
    StronglySorted hired_after rows.
Proof.
  apply (list_employees_whole_table 5 world0); [done|].
  cbn. unfold int8_max. lia.
Defined.

(** X16.  Reading leaves no trace but the statement: a call of
    [list_employees] or [get_employee_by_id] that does not answer with
    the envelope returns in the world it started in, with its statement
    added to the log: same rows, same sequence, no connection and no
    cursor left open. *)
Theorem reading_leaves_the_world :
  (forall limit w v w',
     list_employees limit w = (Ok v, w') -> ~ is_error_envelope v ->
     w' = set_log (log w ++ [(list_employees_sql, [PyInt limit])]) w) /\
  (forall employee_id w v w',
     get_employee_by_id employee_id w = (Ok v, w') ->
     ~ is_error_envelope v ->
     w' = set_log (log w ++ [(get_employee_sql, [PyInt employee_id])]) w).
Proof.
  split.
  - intros limit w v w' Hrun Hv.
    destruct (list_employees_cases limit w) as [[msg Herr]|[_ Hok]].
    + rewrite Hrun in Herr. injection Herr as ->. destruct Hv. by exists msg.
    + rewrite Hrun in Hok. by injection Hok as -> ->.
  - intros employee_id w v w' Hrun Hv.
    destruct (get_employee_by_id_cases employee_id w) as [[msg Herr]|Hok].
    + rewrite Hrun in Herr. injection Herr as ->. destruct Hv. by exists msg.
    + rewrite Hrun in Hok. by injection Hok as -> ->.
Qed.

Lemma reading_leaves_the_world_witness :
  snd (list_employees 2 world0) =
    set_log [(list_employees_sql, [PyInt 2])] world0 /\
  snd (get_employee_by_id 7 world0) =
    set_log [(get_employee_sql, [PyInt 7])] world0.
Proof.
  destruct reading_leaves_the_world as [Hlist Hget]. split.
  - apply (Hlist 2 world0 (PyList (map employee_record [bob; eve]))).
    + vm_compute. reflexivity.
    + intros [msg Hmsg]. discriminate Hmsg.
  - apply (Hget 7 world0 PyNone).
    + vm_compute. reflexivity.
    + intros [msg Hmsg]. discriminate Hmsg.
Defined.

(** X17.  What is listed can be fetched: against a store that answers,
    with pairwise distinct identifiers in the table and a limit within
    [0] and [bigint], [get_employee_by_id] returns, for the [id] of
    every record that [list_employees] has just returned, that same
    record. *)
Theorem listed_can_be_fetched limit w :
  (forall s, faults w s = None) ->
  NoDup (emp_id <$> table w) ->
  0 <= limit <= int8_max ->
  exists rows,
    fst (list_employees limit w) = Ok (PyList (map employee_record rows)) /\
    forall r, r ∈ rows ->
      fst (get_employee_by_id (emp_id r) (snd (list_employees limit w)))
      = Ok (employee_record r).
Proof.
  intros Hf Hids [Hmin Hmax].
  destruct (list_employees_cases limit w) as [[msg Herr]|[_ Hok]].
  { destruct (list_employees_no_faults w Hf limit) as [Hv _].
    rewrite (proj2 (Z.ltb_ge limit 0)) in Hv by lia.
    rewrite (proj2 (Z.ltb_ge int8_max limit)) in Hv by lia.
    rewrite Hv in Herr. discriminate Herr. }
  rewrite Hok. eexists. split; [reflexivity|]. intros r Hr. cbn [snd].
  rewrite get_employee_by_id_no_faults by done. cbn [fst table set_log].
  rewrite filter_unique_id; [done|done|].
  apply (subseteq_take (Z.to_nat limit)) in Hr.
  by rewrite (merge_sort_Permutation hired_after (table w)) in Hr.
Qed.

Lemma listed_can_be_fetched_witness :
  exists rows,
    fst (list_employees 2 world0) = Ok (PyList (map employee_record rows)) /\
    forall r, r ∈ rows ->
      fst (get_employee_by_id (emp_id r) (snd (list_employees 2 world0)))
      = Ok (employee_record r).
Proof.
  apply (listed_can_be_fetched 2 world0); [done| |unfold int8_max; lia].
  cbn. apply (bool_decide_unpack _). by vm_compute.
Defined.

(** X14.  With [str] arguments, [add_employee] answers "Employee
    position cannot be empty." exactly when the name is not all white
    space and the position is, and "Employee department cannot be
    empty." exactly when neither the name nor the position is and the
    department is; no failure of the store produces these messages. *)
Theorem position_department_rejected_iff n p d salary w :
  (fst (add_employee (PyStr n) (PyStr p) (PyStr d) salary w) =
     Ok (error_envelope "Employee position cannot be empty.")
   <-> all_space n = false /\ all_space p = true) /\
  (fst (add_employee (PyStr n) (PyStr p) (PyStr d) salary w) =
     Ok (error_envelope "Employee department cannot be empty.")
   <-> all_space n = false /\ all_space p = false /\ all_space d = true).
Proof.
  assert (Hwhite : forall s, is_empty (strip s) = all_space s).
  { intros s. destruct (all_space s) eqn:Hs.
    - by apply is_empty_true, strip_empty.
    - apply is_empty_false. intros Hstrip%strip_empty. congruence. }
  rewrite <- !Hwhite.
  destruct (is_empty (strip n)) eqn:Hn.
  { assert (Hrun : fst (add_employee (PyStr n) (PyStr p) (PyStr d) salary w)
                   = Ok (error_envelope "Employee name cannot be empty."))
      by (unfold_tools; cbn; by rewrite Hn).
    rewrite Hrun. split; (split; [by intros [=]|by intros [[=] _]]). }
  destruct (is_empty (strip p)) eqn:Hp.
  { assert (Hrun : fst (add_employee (PyStr n) (PyStr p) (PyStr d) salary w)
                   = Ok (error_envelope "Employee position cannot be empty."))
      by (unfold_tools; cbn; rewrite Hn; cbn; by rewrite Hp).
    rewrite Hrun. split; [done|].
    split; [by intros [=]|by intros (_ & [=] & _)]. }
  destruct (is_empty (strip d)) eqn:Hd.
  { assert (Hrun : fst (add_employee (PyStr n) (PyStr p) (PyStr d) salary w)
                   = Ok (error_envelope
                           "Employee department cannot be empty."))
      by (unfold_tools; cbn; rewrite Hn; cbn; rewrite Hp; cbn; by rewrite Hd).
    rewrite Hrun. split; [|done]. split; [by intros [=]|by intros [_ [=]]]. }
  split; (split; [|first [by intros [_ [=]]|by intros (_ & _ & [=])]]);
    unfold_tools; cbn; rewrite Hn; cbn; rewrite Hp; cbn; rewrite Hd;
    run_paths; by intros [=].
Qed.

(** X18.  Adding and listing everything: after a call of [add_employee]
    that succeeds, [list_employees] with a limit that the table does not
    reach returns, against a store that answers, the records of the rows
    that were there and of the new one, and no other. *)
Theorem add_then_list_all name position department salary w v w' limit :
  add_employee name position department salary w = (Ok v, w') ->
  ~ is_error_envelope v ->
  (forall s, faults w s = None) ->
  Z.of_nat (length (table w)) < limit <= int8_max ->
  exists r rows,
    v = added r /\
    fst (list_employees limit w') = Ok (PyList (map employee_record rows)) /\
    rows ≡ₚ table w ++ [r] /\
    StronglySorted hired_after rows.
Proof.
  intros Hrun Hv Hf [Hsize Hmax].
  destruct (add_employee_success _ _ _ _ _ _ _ Hrun Hv)
    as (n & p & d & x & _ & _ & _ & _ & _ & _ & _ & _ & -> & ->).
  exists (hired n p d x w),
    (merge_sort hired_after (table w ++ [hired n p d x w])).
  split; [done|].
  destruct (list_employees_no_faults
              (set_table (table w ++ [hired n p d x w])
                 (set_sequence (sequence w + 1)
                    (set_log
                       (log w ++ [(add_employee_sql,
                                   [name; position; department; salary;
                                    PyDatetime (clock w)])]) w)))
              Hf limit) as [-> _].
  cbn [table set_table].
  rewrite (proj2 (Z.ltb_ge limit 0)) by lia.
  rewrite (proj2 (Z.ltb_ge int8_max limit)) by lia.
  split; [|split].
  - rewrite take_ge; [done|].
    rewrite (merge_sort_Permutation hired_after), length_app. cbn. lia.
  - apply merge_sort_Permutation.
  - apply (StronglySorted_merge_sort _).
Qed.

Lemma add_then_list_all_witness :
  let run := add_employee (PyStr "Zed") (PyStr "Clerk") (PyStr "Sales")
               (PyInt 50000) world0 in
  exists r rows,
    fst run = Ok (added r) /\
    fst (list_employees 10 (snd run)) = Ok (PyList (map employee_record rows))
    /\ rows ≡ₚ [ada; bob; eve] ++ [r].
Proof.
  intros run.
  destruct (add_then_list_all (PyStr "Zed") (PyStr "Clerk") (PyStr "Sales")
              (PyInt 50000) world0
              (added (Employee 4 "Zed" "Clerk" "Sales" (NInt 50000) 5000))
              (snd run) 10)
    as (r & rows & Hv & Hlist & Hperm & _).
  - vm_compute. reflexivity.
  - intros [msg Hmsg]. discriminate Hmsg.
  - done.
  - cbn. unfold int8_max. lia.
  - exists r, rows.
    split; [rewrite <- Hv; vm_compute; reflexivity|]. by split.
Defined.
